(** * The X11 mouse cursor monitor of WebRTC's desktop capture module

    A shallow embedding of
    [webrtc/modules/desktop_capture/mouse_cursor_monitor_x11.cc]:
    the window-tree walk [GetTopLevelWindow], the class
    [MouseCursorMonitorX11] ([Init], [Capture], [HandleXEvent],
    [CaptureCursor], the destructor) and the two factory functions
    [CreateForWindow] and [CreateForScreen].

    The object's fields are threaded through a small state monad that also
    records the calls the object makes on its collaborators (the consumer
    callback, the shared display's handler registry, the X server) and that
    stops at a failed [assert].  What the X server answers is an input of
    each operation. *)

From Stdlib Require Import ZArith Lia.
From stdpp Require Import base list.

Local Open Scope Z_scope.

(** ** Xlib and XFixes: types and constants of the system headers *)

Module X11.

(** [Window] is an XID. *)
Definition Window := Z.

(** [#define None 0L] of X.h. *)
Definition None_ : Window := 0.

(** Event codes and masks of the XFixes wire protocol. *)
Definition XFixesCursorNotify : Z := 1.
Definition XFixesDisplayCursorNotify : Z := 0.
Definition XFixesDisplayCursorNotifyMask : Z := 1.

(** What [XQueryTree] writes to [root] and [parent] when it succeeds. The
    children array is freed at once by the caller and plays no role. *)
Record XQueryTreeReply := {
  qt_root : Window;
  qt_parent : Window
}.

(** A connection to the server, as far as construction uses it: the window
    tree, and the root window of the default screen.  [XQueryTree] is
    [None] where the C function returns zero. *)
Record Display := {
  XQueryTree : Window -> option XQueryTreeReply;
  DefaultRootWindow : Window
}.

(** [XFixesCursorImage]: [width], [height], [xhot], [yhot] are
    [unsigned short]; [pixels] points to [unsigned long] elements. *)
Record XFixesCursorImage := {
  img_x : Z;
  img_y : Z;
  width : Z;
  height : Z;
  xhot : Z;
  yhot : Z;
  cursor_serial : Z;
  pixels : list Z
}.

(** An [XEvent], read as the code reads it: its [type], and the [subtype]
    that [XFixesCursorNotifyEvent] has at that place. *)
Record XEvent := {
  type : Z;
  subtype : Z
}.

(** The answer to [XFixesQueryExtension]. *)
Record XFixesQueryExtensionReply := {
  ext_available : bool;
  ext_event_base : Z;
  ext_error_base : Z
}.

(** The answer to [XFixesGetCursorImage] together with the code that the
    surrounding [XErrorTrap] reports from [GetLastErrorAndDisable]. *)
Record CursorImageReply := {
  fetched : option XFixesCursorImage;
  fetch_error : Z
}.

(** The answer to [XQueryPointer] together with the code the surrounding
    [XErrorTrap] reports. *)
Record XQueryPointerReply := {
  qp_result : bool;
  qp_root_window : Window;
  qp_child_window : Window;
  qp_root_x : Z;
  qp_root_y : Z;
  qp_win_x : Z;
  qp_win_y : Z;
  qp_mask : Z;
  qp_error : Z
}.

End X11.

Import X11.

(** ** Fixed-width arithmetic *)

(** [static_cast<uint32_t>] of an [unsigned long]. *)
Definition static_cast_uint32 (v : Z) : Z := v mod 2 ^ 32.

(** A value brought into the range of [int] by wrap-around. *)
Definition to_int (v : Z) : Z := (v + 2 ^ 31) mod 2 ^ 32 - 2 ^ 31.

Definition INT_MAX : Z := 2 ^ 31 - 1.

(** ** GetTopLevelWindow *)

(** What a walk up the window tree did: the window it returned, the windows
    it passed to [XQueryTree], in order, and how often it executed
    [window = parent]. *)
Record Resolution := {
  toplevel : Window;
  queried : list Window;
  ascensions : nat
}.

(** The [while (true)] loop, with [fuel] bounding the number of iterations;
    [None] when the fuel is used up before the loop is left. *)
Fixpoint GetTopLevelWindow_loop (fuel : nat) (display : Display)
    (window : Window) (asked : list Window) (ups : nat) : option Resolution :=
  match fuel with
  | O => None
  | S fuel' =>
      match XQueryTree display window with
      | None =>
          Some {| toplevel := None_; queried := asked ++ [window];
                  ascensions := ups |}
      | Some reply =>
          if decide (qt_parent reply = qt_root reply)
          then Some {| toplevel := window; queried := asked ++ [window];
                       ascensions := ups |}
          else GetTopLevelWindow_loop fuel' display (qt_parent reply)
                 (asked ++ [window]) (S ups)
      end
  end.

Definition GetTopLevelWindow (fuel : nat) (display : Display)
    (window : Window) : option Resolution :=
  GetTopLevelWindow_loop fuel display window [] 0%nat.

(** ** The data the monitor hands out *)

Inductive Mode := SHAPE_ONLY | SHAPE_AND_POSITION.

Inductive CursorState := INSIDE | OUTSIDE.

#[global] Instance Mode_eq_dec : EqDecision Mode.
Proof. solve_decision. Defined.

#[global] Instance CursorState_eq_dec : EqDecision CursorState.
Proof. solve_decision. Defined.

Record DesktopVector := { vx : Z; vy : Z }.

Record DesktopSize := { size_width : Z; size_height : Z }.

(** A [BasicDesktopFrame], its buffer seen as the code writes it: through a
    [uint32_t*], one element per pixel. *)
Record DesktopFrame := {
  frame_size : DesktopSize;
  data : list Z
}.

Record MouseCursor := {
  image : DesktopFrame;
  hotspot : DesktopVector
}.

(** The pixel loop of [CaptureCursor]: [n] is [dst_end - dst], [src] what is
    left of the native buffer, [dst] the index written next.  The loop in the
    source does not look at the length of the native buffer; here it stops
    where that buffer ends. *)
Fixpoint convert_pixels (n : nat) (src : list Z) (dst : nat)
    (buffer : list Z) : list Z :=
  match n with
  | O => buffer
  | S n' =>
      match src with
      | [] => buffer
      | p :: src' =>
          convert_pixels n' src' (S dst) (<[dst := static_cast_uint32 p]> buffer)
      end
  end.

(** [new BasicDesktopFrame(size)]: a buffer of width * height pixels. The
    source leaves it uninitialised; here it starts as zeros. *)
Definition BasicDesktopFrame (size : DesktopSize) : DesktopFrame :=
  {| frame_size := size;
     data := replicate (Z.to_nat (size_width size * size_height size)) 0 |}.

(** The part of [CaptureCursor] after a successful fetch: allocation, pixel
    loop and hotspot. [img->width * img->height] is a product of [int]s. *)
Definition cursor_of_image (img : XFixesCursorImage) : MouseCursor :=
  let frame := BasicDesktopFrame
                 {| size_width := width img; size_height := height img |} in
  let count := to_int (width img * height img) in
  {| image := {| frame_size := frame_size frame;
                 data := convert_pixels (Z.to_nat count) (pixels img) 0%nat
                           (data frame) |};
     hotspot := {| vx := Z.min (width img) (xhot img);
                   vy := Z.min (height img) (yhot img) |} |}.

(** ** The object and its collaborators *)

(** [SharedXDisplay], seen through [display()]. *)
Record SharedXDisplay := { display : Display }.

(** [DesktopCaptureOptions::x_display()] is a possibly null reference. *)
Record DesktopCaptureOptions := { x_display : option SharedXDisplay }.

(** A non-null [Callback*]. *)
Definition Callback := nat.

Definition WindowId := Window.
Definition ScreenId := Z.

Record MouseCursorMonitorX11 := {
  x_display_ : option SharedXDisplay;
  callback_ : option Callback;
  mode_ : Mode;
  window_ : Window;
  have_xfixes_ : bool;
  xfixes_event_base_ : Z;
  xfixes_error_base_ : Z;
  cursor_shape_ : option MouseCursor
}.

(** The constructor's member initialisers. *)
Definition new_MouseCursorMonitorX11 (options : DesktopCaptureOptions)
    (window : Window) : MouseCursorMonitorX11 :=
  {| x_display_ := x_display options;
     callback_ := None;
     mode_ := SHAPE_AND_POSITION;
     window_ := window;
     have_xfixes_ := false;
     xfixes_event_base_ := -1;
     xfixes_error_base_ := -1;
     cursor_shape_ := None |}.

Definition set_callback_ (v : option Callback) (o : MouseCursorMonitorX11) :=
  {| x_display_ := x_display_ o; callback_ := v; mode_ := mode_ o;
     window_ := window_ o; have_xfixes_ := have_xfixes_ o;
     xfixes_event_base_ := xfixes_event_base_ o;
     xfixes_error_base_ := xfixes_error_base_ o;
     cursor_shape_ := cursor_shape_ o |}.

Definition set_mode_ (v : Mode) (o : MouseCursorMonitorX11) :=
  {| x_display_ := x_display_ o; callback_ := callback_ o; mode_ := v;
     window_ := window_ o; have_xfixes_ := have_xfixes_ o;
     xfixes_event_base_ := xfixes_event_base_ o;
     xfixes_error_base_ := xfixes_error_base_ o;
     cursor_shape_ := cursor_shape_ o |}.

(** [XFixesQueryExtension] writes the two bases only when it returns true. *)
Definition set_xfixes (r : XFixesQueryExtensionReply)
    (o : MouseCursorMonitorX11) :=
  {| x_display_ := x_display_ o; callback_ := callback_ o; mode_ := mode_ o;
     window_ := window_ o; have_xfixes_ := ext_available r;
     xfixes_event_base_ :=
       if ext_available r then ext_event_base r else xfixes_event_base_ o;
     xfixes_error_base_ :=
       if ext_available r then ext_error_base r else xfixes_error_base_ o;
     cursor_shape_ := cursor_shape_ o |}.

Definition set_cursor_shape_ (v : option MouseCursor)
    (o : MouseCursorMonitorX11) :=
  {| x_display_ := x_display_ o; callback_ := callback_ o; mode_ := mode_ o;
     window_ := window_ o; have_xfixes_ := have_xfixes_ o;
     xfixes_event_base_ := xfixes_event_base_ o;
     xfixes_error_base_ := xfixes_error_base_ o;
     cursor_shape_ := v |}.

(** The calls the object makes on others, in the order it makes them. *)
Inductive Call :=
| XFixesSelectCursorInput (w : Window) (mask : Z)
| AddEventHandler (code : Z)
| RemoveEventHandler (code : Z)
| LOG_INFO
| OnMouseCursor (cb : Callback) (shape : MouseCursor)
| OnMouseCursorPosition (cb : Callback) (state : CursorState)
    (position : DesktopVector).

(** ** The monad of member functions *)

(** A member function runs on the object and the calls made so far. It
    returns, or stops at a failed [assert]; either way the object and the
    calls are as they were at that point. *)
Inductive Outcome (A : Type) :=
| Returned (a : A) (self : MouseCursorMonitorX11) (calls : list Call)
| AssertionFailed (self : MouseCursorMonitorX11) (calls : list Call).

Arguments Returned {A} a self calls.
Arguments AssertionFailed {A} self calls.

Definition M (A : Type) : Type :=
  MouseCursorMonitorX11 -> list Call -> Outcome A.

Definition ret {A} (a : A) : M A := fun o cs => Returned a o cs.

Definition bind {A B} (m : M A) (k : A -> M B) : M B :=
  fun o cs =>
    match m o cs with
    | Returned a o' cs' => k a o' cs'
    | AssertionFailed o' cs' => AssertionFailed o' cs'
    end.

Notation "x <- c1 ;; c2" := (bind c1 (fun x => c2))
  (at level 100, c1 at next level, right associativity).
Notation "c1 ;; c2" := (bind c1 (fun _ => c2))
  (at level 100, right associativity).

Definition this : M MouseCursorMonitorX11 := fun o cs => Returned o o cs.

Definition update (f : MouseCursorMonitorX11 -> MouseCursorMonitorX11)
    : M unit :=
  fun o cs => Returned tt (f o) cs.

Definition call (c : Call) : M unit := fun o cs => Returned tt o (cs ++ [c]).

Definition assert (b : bool) : M unit :=
  fun o cs => if b then Returned tt o cs else AssertionFailed o cs.

Definition when (b : bool) (m : M unit) : M unit := if b then m else ret tt.

(** The object and the calls a member function leaves behind. *)
Definition self_of {A} (r : Outcome A) : MouseCursorMonitorX11 :=
  match r with Returned _ o _ => o | AssertionFailed o _ => o end.

Definition calls_of {A} (r : Outcome A) : list Call :=
  match r with Returned _ _ cs => cs | AssertionFailed _ cs => cs end.

(** ** The member functions *)

(** [CaptureCursor]. When the fetch returns an image but the trap holds an
    error, the function returns as well. *)
Definition CaptureCursor (reply : CursorImageReply) : M unit :=
  o <- this ;;
  assert (have_xfixes_ o) ;;
  match fetched reply with
  | None => ret tt
  | Some img =>
      if bool_decide (fetch_error reply <> 0) then ret tt
      else update (set_cursor_shape_ (Some (cursor_of_image img)))
  end.

(** [HandleXEvent]; [reply] is what the server answers should the handler
    fetch the cursor image. *)
Definition HandleXEvent (event : XEvent) (reply : CursorImageReply) : M bool :=
  o <- this ;;
  when (have_xfixes_ o &&
        bool_decide (type event = xfixes_event_base_ o + XFixesCursorNotify))
       (when (bool_decide (subtype event = XFixesDisplayCursorNotify))
             (CaptureCursor reply)) ;;
  ret false.

(** Modelled from the spec: [SharedXDisplay::ProcessPendingXEvents] is
    declared in another file. The drain takes the events queued so far, in
    order, and hands each to the handler; the handler's result does not stop
    it. [pending] lists the queued events, each with the answer the server
    gives to a fetch made while it is handled. *)
Fixpoint ProcessPendingXEvents (pending : list (XEvent * CursorImageReply))
    : M unit :=
  match pending with
  | [] => ret tt
  | (event, reply) :: rest =>
      HandleXEvent event reply ;; ProcessPendingXEvents rest
  end.

(** [Init]. *)
Definition Init (callback : option Callback) (mode : Mode)
    (ext : XFixesQueryExtensionReply) (reply : CursorImageReply) : M unit :=
  o <- this ;;
  assert (bool_decide (callback_ o = None)) ;;
  assert (bool_decide (callback <> None)) ;;
  update (set_callback_ callback) ;;
  update (set_mode_ mode) ;;
  update (set_xfixes ext) ;;
  o <- this ;;
  if have_xfixes_ o then
    call (XFixesSelectCursorInput (window_ o) XFixesDisplayCursorNotifyMask) ;;
    call (AddEventHandler (xfixes_event_base_ o + XFixesCursorNotify)) ;;
    CaptureCursor reply
  else
    call LOG_INFO.

(** The classification in [Capture]. *)
Definition position_state (window : Window) (p : XQueryPointerReply)
    : CursorState :=
  if negb (qp_result p) || bool_decide (qp_error p <> 0) then OUTSIDE
  else if bool_decide (window = qp_root_window p)
          || bool_decide (qp_child_window p <> None_)
       then INSIDE else OUTSIDE.

(** [Capture]; [pending] is what the event drain finds, [pointer] the
    answer to [XQueryPointer]. *)
Definition Capture (pending : list (XEvent * CursorImageReply))
    (pointer : XQueryPointerReply) : M unit :=
  o <- this ;;
  match callback_ o with
  | None => assert false
  | Some cb =>
      ProcessPendingXEvents pending ;;
      o <- this ;;
      match cursor_shape_ o with
      | Some shape =>
          update (set_cursor_shape_ None) ;; call (OnMouseCursor cb shape)
      | None => ret tt
      end ;;
      o <- this ;;
      when (bool_decide (mode_ o = SHAPE_AND_POSITION))
        (call (OnMouseCursorPosition cb (position_state (window_ o) pointer)
                 {| vx := qp_win_x pointer; vy := qp_win_y pointer |}))
  end.

(** The destructor. *)
Definition destroy : M unit :=
  o <- this ;;
  when (have_xfixes_ o)
       (call (RemoveEventHandler (xfixes_event_base_ o + XFixesCursorNotify))).

(** ** The factory functions *)

(** [MouseCursorMonitor::CreateForWindow]. The outer [option] is [None] when
    the walk up the window tree is not over within [fuel] iterations; the
    inner one is the returned pointer, [None] for [NULL]. *)
Definition CreateForWindow (fuel : nat) (options : DesktopCaptureOptions)
    (window : WindowId) : option (option MouseCursorMonitorX11) :=
  match x_display options with
  | None => Some None
  | Some d =>
      r ← GetTopLevelWindow fuel (display d) window;
      let window := toplevel r in
      if bool_decide (window = None_) then Some None
      else Some (Some (new_MouseCursorMonitorX11 options window))
  end.

(** [MouseCursorMonitor::CreateForScreen]. *)
Definition CreateForScreen (options : DesktopCaptureOptions)
    (screen : ScreenId) : option MouseCursorMonitorX11 :=
  match x_display options with
  | None => None
  | Some d =>
      Some (new_MouseCursorMonitorX11 options (DefaultRootWindow (display d)))
  end.

(** ** The checks of Init in either build

    [assert] is the macro of <cassert>: where NDEBUG is defined it expands
    to nothing. [assert] above, and with it [CaptureCursor], [Init] and
    [Capture], are the member functions as compiled without NDEBUG.
    [Init_in ndebug] is [Init] as compiled with NDEBUG ([ndebug = true]) or
    without it. [Capture] has no such variant: without its assert, a
    Capture before Init calls through the null [callback_], for which the
    language defines no behaviour. *)

Definition assert_in (ndebug : bool) (b : bool) : M unit :=
  if ndebug then ret tt else assert b.

Definition CaptureCursor_in (ndebug : bool) (reply : CursorImageReply)
    : M unit :=
  o <- this ;;
  assert_in ndebug (have_xfixes_ o) ;;
  match fetched reply with
  | None => ret tt
  | Some img =>
      if bool_decide (fetch_error reply <> 0) then ret tt
      else update (set_cursor_shape_ (Some (cursor_of_image img)))
  end.

Definition Init_in (ndebug : bool) (callback : option Callback) (mode : Mode)
    (ext : XFixesQueryExtensionReply) (reply : CursorImageReply) : M unit :=
  o <- this ;;
  assert_in ndebug (bool_decide (callback_ o = None)) ;;
  assert_in ndebug (bool_decide (callback <> None)) ;;
  update (set_callback_ callback) ;;
  update (set_mode_ mode) ;;
  update (set_xfixes ext) ;;
  o <- this ;;
  if have_xfixes_ o then
    call (XFixesSelectCursorInput (window_ o) XFixesDisplayCursorNotifyMask) ;;
    call (AddEventHandler (xfixes_event_base_ o + XFixesCursorNotify)) ;;
    CaptureCursor_in ndebug reply
  else
    call LOG_INFO.

(** ** Vocabulary of the statements *)

(** [ascends d w path t]: starting at [w], the loop of [GetTopLevelWindow]
    goes up through the windows of [path] (each has a parent that is not the
    root) and arrives at [t]. The length of [path] is the depth of [w] below
    the children of the root. *)
Inductive ascends (d : Display) : Window -> list Window -> Window -> Prop :=
| ascends_here w : ascends d w [] w
| ascends_up w reply path t :
    XQueryTree d w = Some reply ->
    qt_parent reply <> qt_root reply ->
    ascends d (qt_parent reply) path t ->
    ascends d w (w :: path) t.

(** [t] is a child of the root: the server reports the root as its parent. *)
Definition root_child (d : Display) (t : Window) : Prop :=
  exists reply, XQueryTree d t = Some reply /\ qt_parent reply = qt_root reply.

(** The shapes and the positions a list of calls hands to the consumer. *)
Definition shapes_delivered (cs : list Call) : list MouseCursor :=
  omap (fun c => match c with OnMouseCursor _ s => Some s | _ => None end) cs.

Definition positions_delivered (cs : list Call)
    : list (CursorState * DesktopVector) :=
  omap (fun c => match c with
                 | OnMouseCursorPosition _ st p => Some (st, p)
                 | _ => None
                 end) cs.

(** The calls that touch the subscription. *)
Definition is_subscription_call (c : Call) : bool :=
  match c with
  | XFixesSelectCursorInput _ _ | AddEventHandler _ | RemoveEventHandler _ =>
      true
  | _ => false
  end.

Definition subscription_calls (cs : list Call) : list Call :=
  filter (fun c => is_subscription_call c) cs.

(** A fetch that [CaptureCursor] accepts, and one that it gives up on. *)
Definition fetch_ok (reply : CursorImageReply) (img : XFixesCursorImage) : Prop :=
  fetched reply = Some img /\ fetch_error reply = 0.

Definition fetch_failed (reply : CursorImageReply) : Prop :=
  fetched reply = None \/ fetch_error reply <> 0.

(** A cursor notification of the display-cursor subtype, for the object's
    event base. *)
Definition shape_change (o : MouseCursorMonitorX11) (event : XEvent) : Prop :=
  type event = xfixes_event_base_ o + XFixesCursorNotify /\
  subtype event = XFixesDisplayCursorNotify.

(** What happens to an initialised object: the consumer calls [Capture], or
    the shared display, drained by another of its users, hands the object
    an event. *)
Inductive Step :=
| CaptureStep (pending : list (XEvent * CursorImageReply))
    (pointer : XQueryPointerReply)
| EventStep (event : XEvent) (reply : CursorImageReply).

Fixpoint run_steps (steps : list Step) : M unit :=
  match steps with
  | [] => ret tt
  | CaptureStep pending pointer :: rest =>
      Capture pending pointer ;; run_steps rest
  | EventStep event reply :: rest =>
      HandleXEvent event reply ;; run_steps rest
  end.

(** The calls one [Capture] adds: the pending shape, if there is one, then
    the position, if the mode asks for it. *)
Definition shape_call (cb : Callback) (shape : option MouseCursor)
    : list Call :=
  match shape with
  | Some s => [OnMouseCursor cb s]
  | None => []
  end.

Definition position_call (cb : Callback) (o : MouseCursorMonitorX11)
    (pointer : XQueryPointerReply) : list Call :=
  if bool_decide (mode_ o = SHAPE_AND_POSITION)
  then [OnMouseCursorPosition cb (position_state (window_ o) pointer)
          {| vx := qp_win_x pointer; vy := qp_win_y pointer |}]
  else [].

(** An outcome of an object without XFixes: nothing is pending, and no
    shape has been delivered beyond those of [cs0]. *)
Definition inert {A} (cs0 : list Call) (r : Outcome A) : Prop :=
  have_xfixes_ (self_of r) = false
  /\ cursor_shape_ (self_of r) = None
  /\ shapes_delivered (calls_of r) = shapes_delivered cs0.

(** The shape [CaptureCursor] makes of an answer of the server, when it
    accepts the answer. *)
Definition fetched_shape (reply : CursorImageReply) : option MouseCursor :=
  match fetched reply with
  | Some img =>
      if bool_decide (fetch_error reply <> 0) then None
      else Some (cursor_of_image img)
  | None => None
  end.

(** The shape an event puts into the slot, when the handler acts on the
    event and the fetch is accepted. *)
Definition accepted (o : MouseCursorMonitorX11)
    (er : XEvent * CursorImageReply) : option MouseCursor :=
  if have_xfixes_ o
     && bool_decide (type er.1 = xfixes_event_base_ o + XFixesCursorNotify)
     && bool_decide (subtype er.1 = XFixesDisplayCursorNotify)
  then fetched_shape er.2
  else None.

(** A slot that holds [old] and is offered [new]. *)
Definition overwrite (new old : option MouseCursor) : option MouseCursor :=
  match new with
  | Some s => Some s
  | None => old
  end.

(** The slot after the events of [pending], by their last accepted shape. *)
Definition slot_after (o : MouseCursorMonitorX11)
    (pending : list (XEvent * CursorImageReply)) : option MouseCursor :=
  overwrite (last (omap (accepted o) pending)) (cursor_shape_ o).

(** The number of [Capture] calls among the steps. *)
Fixpoint captures (steps : list Step) : nat :=
  match steps with
  | [] => 0%nat
  | CaptureStep _ _ :: rest => S (captures rest)
  | EventStep _ _ :: rest => captures rest
  end.

(** A call on the consumer callback [cb]. *)
Definition to_callback (cb : Callback) (c : Call) : Prop :=
  match c with
  | OnMouseCursor cb' _ | OnMouseCursorPosition cb' _ _ => cb' = cb
  | _ => False
  end.

(** An object from [Init] to its destruction. *)
Definition lifetime (callback : option Callback) (mode : Mode)
    (ext : XFixesQueryExtensionReply) (reply : CursorImageReply)
    (steps : list Step) : M unit :=
  Init callback mode ext reply ;; run_steps steps ;; destroy.

(** The answers of the server to the fetches that the steps may make. *)
Fixpoint replies_of_steps (steps : list Step) : list CursorImageReply :=
  match steps with
  | [] => []
  | CaptureStep pending _ :: rest => (snd <$> pending) ++ replies_of_steps rest
  | EventStep _ reply :: rest => reply :: replies_of_steps rest
  end.

(** A native image as the server sends it: its unsigned fields are not
    negative, the product of width and height fits in an [int], and the
    buffer holds width * height elements. *)
Definition native_image_ok (img : XFixesCursorImage) : Prop :=
  0 <= width img /\ 0 <= height img /\ 0 <= xhot img /\ 0 <= yhot img
  /\ width img * height img <= INT_MAX
  /\ length (pixels img) = Z.to_nat (width img * height img).

Definition reply_ok (reply : CursorImageReply) : Prop :=
  forall img, fetched reply = Some img -> native_image_ok img.

(** A shape whose bitmap has as many pixels as its size says and whose
    hotspot is not outside the frame (its far edges included). *)
Definition shape_consistent (s : MouseCursor) : Prop :=
  length (data (image s)) =
    Z.to_nat (size_width (frame_size (image s))
              * size_height (frame_size (image s)))
  /\ 0 <= vx (hotspot s) <= size_width (frame_size (image s))
  /\ 0 <= vy (hotspot s) <= size_height (frame_size (image s)).

(** ** Sample inputs *)

Module Sample.

(** Root 1; window 4 is a child of the root, 5 a child of 4, 6 a child of
    5; window 9 hangs below the destroyed window 8. *)
Definition tree (w : Window) : option XQueryTreeReply :=
  if bool_decide (w = 4) then Some {| qt_root := 1; qt_parent := 1 |}
  else if bool_decide (w = 5) then Some {| qt_root := 1; qt_parent := 4 |}
  else if bool_decide (w = 6) then Some {| qt_root := 1; qt_parent := 5 |}
  else if bool_decide (w = 9) then Some {| qt_root := 1; qt_parent := 8 |}
  else None.

Definition dpy : Display := {| XQueryTree := tree; DefaultRootWindow := 1 |}.

Definition options : DesktopCaptureOptions :=
  {| x_display := Some {| display := dpy |} |}.

Definition no_display : DesktopCaptureOptions := {| x_display := None |}.

Definition image_10x10 : XFixesCursorImage :=
  {| img_x := 0; img_y := 0; width := 10; height := 10; xhot := 15;
     yhot := 3; cursor_serial := 1; pixels := replicate 100 4278190080 |}.

Definition image_2x2 : XFixesCursorImage :=
  {| img_x := 0; img_y := 0; width := 2; height := 2; xhot := 0; yhot := 0;
     cursor_serial := 2;
     pixels := [2864434397; 287454020; 1432778632; 2578103244] |}.

(** An image of 46341 x 46341 elements, all 1: the product of width and
    height, 2147488281, is above INT_MAX. *)
Definition image_46341 : XFixesCursorImage :=
  {| img_x := 0; img_y := 0; width := 46341; height := 46341; xhot := 0;
     yhot := 0; cursor_serial := 3;
     pixels := replicate (Z.to_nat (46341 * 46341)) 1 |}.

Definition good (img : XFixesCursorImage) : CursorImageReply :=
  {| fetched := Some img; fetch_error := 0 |}.

Definition no_image : CursorImageReply :=
  {| fetched := None; fetch_error := 0 |}.

Definition xfixes : XFixesQueryExtensionReply :=
  {| ext_available := true; ext_event_base := 87; ext_error_base := 140 |}.

Definition no_xfixes : XFixesQueryExtensionReply :=
  {| ext_available := false; ext_event_base := 0; ext_error_base := 0 |}.

Definition notify : XEvent := {| type := 88; subtype := 0 |}.

Definition pointer_over (root child : Window) : XQueryPointerReply :=
  {| qp_result := true; qp_root_window := root; qp_child_window := child;
     qp_root_x := 30; qp_root_y := 40; qp_win_x := 3; qp_win_y := 4;
     qp_mask := 0; qp_error := 0 |}.

(** A monitor of window 4 after [Init] with XFixes present, and one that
    was only constructed. *)
Definition fresh : MouseCursorMonitorX11 :=
  new_MouseCursorMonitorX11 options 4.

Definition active : MouseCursorMonitorX11 :=
  self_of (Init (Some 7%nat) SHAPE_AND_POSITION xfixes no_image fresh []).

End Sample.

(** * Properties *)

(** ** The monad *)

Ltac run :=
  unfold bind, this, update, call, assert, when, ret in *; cbn in *.

Lemma set_cursor_shape_same o : set_cursor_shape_ (cursor_shape_ o) o = o.
Proof. by destruct o. Qed.

Lemma set_cursor_shape_twice v v' o :
  set_cursor_shape_ v (set_cursor_shape_ v' o) = set_cursor_shape_ v o.
Proof. by destruct o. Qed.

(** ** GetTopLevelWindow *)

Section Walk.

Variable d : Display.

Lemma loop_reaches_top w path t :
  ascends d w path t ->
  root_child d t ->
  forall fuel asked ups, (length path < fuel)%nat ->
    GetTopLevelWindow_loop fuel d w asked ups =
      Some {| toplevel := t; queried := asked ++ path ++ [t];
              ascensions := (ups + length path)%nat |}.
Proof.
  intros Hasc [rt [Hq Hp]].
  induction Hasc as [w | w reply path t Hw Hne _ IH];
    intros fuel asked ups Hfuel; destruct fuel as [|fuel]; cbn in *; try lia.
  - rewrite Hq. rewrite decide_True by done. by rewrite Nat.add_0_r.
  - rewrite Hw. rewrite decide_False by done.
    rewrite (IH Hq fuel) by lia.
    do 2 f_equal; [by rewrite <- app_assoc | lia].
Qed.

Lemma loop_stops_at_failure w path t :
  ascends d w path t ->
  XQueryTree d t = None ->
  forall fuel asked ups, (length path < fuel)%nat ->
    GetTopLevelWindow_loop fuel d w asked ups =
      Some {| toplevel := None_; queried := asked ++ path ++ [t];
              ascensions := (ups + length path)%nat |}.
Proof.
  intros Hasc Hq.
  induction Hasc as [w | w reply path t Hw Hne _ IH];
    intros fuel asked ups Hfuel; destruct fuel as [|fuel]; cbn in *; try lia.
  - rewrite Hq. by rewrite Nat.add_0_r.
  - rewrite Hw. rewrite decide_False by done.
    rewrite (IH Hq fuel) by lia.
    do 2 f_equal; [by rewrite <- app_assoc | lia].
Qed.

End Walk.

(** C6. A window whose chain of ancestors below the children of the root
    has length k is resolved with exactly k ascensions (and k + 1 calls of
    XQueryTree, one per window of the chain) to the child of the root above
    it; a child of the root is resolved to itself with no ascension; and
    when the query of a window on the way fails, the walk ends there with
    None, every window having been asked once. *)
Theorem GetTopLevelWindow_resolves (d : Display) :
  (forall w path t fuel,
      ascends d w path t -> root_child d t -> (length path < fuel)%nat ->
      GetTopLevelWindow fuel d w =
        Some {| toplevel := t; queried := path ++ [t];
                ascensions := length path |})
  /\ (forall w fuel,
      root_child d w ->
      GetTopLevelWindow (S fuel) d w =
        Some {| toplevel := w; queried := [w]; ascensions := 0 |})
  /\ (forall w path t fuel,
      ascends d w path t -> XQueryTree d t = None ->
      (length path < fuel)%nat ->
      GetTopLevelWindow fuel d w =
        Some {| toplevel := None_; queried := path ++ [t];
                ascensions := length path |}).
Proof.
  unfold GetTopLevelWindow. split; [|split].
  - intros w path t fuel Hasc Htop Hfuel.
    by rewrite (loop_reaches_top d w path t Hasc Htop fuel [] 0%nat Hfuel).
  - intros w fuel Htop.
    by rewrite (loop_reaches_top d w [] w (ascends_here d w) Htop (S fuel) []
                  0%nat (Nat.lt_0_succ fuel)).
  - intros w path t fuel Hasc Hfail Hfuel.
    by rewrite (loop_stops_at_failure d w path t Hasc Hfail fuel [] 0%nat Hfuel).
Qed.

Lemma GetTopLevelWindow_resolves_witness :
  GetTopLevelWindow 3 Sample.dpy 6 =
    Some {| toplevel := 4; queried := [6; 5; 4]; ascensions := 2 |}
  /\ GetTopLevelWindow 1 Sample.dpy 4 =
    Some {| toplevel := 4; queried := [4]; ascensions := 0 |}
  /\ GetTopLevelWindow 2 Sample.dpy 9 =
    Some {| toplevel := None_; queried := [9; 8]; ascensions := 1 |}.
Proof.
  destruct (GetTopLevelWindow_resolves Sample.dpy) as (Hup & Hself & Hfail).
  assert (Htop : root_child Sample.dpy 4).
  { exists {| qt_root := 1; qt_parent := 1 |}. split; reflexivity. }
  split; [|split].
  - apply (Hup 6 [6; 5] 4 3%nat); [|exact Htop|cbn; lia].
    apply (ascends_up _ 6 {| qt_root := 1; qt_parent := 5 |});
      [reflexivity|cbn; lia|].
    apply (ascends_up _ 5 {| qt_root := 1; qt_parent := 4 |});
      [reflexivity|cbn; lia|].
    apply ascends_here.
  - apply (Hself 4 0%nat Htop).
  - apply (Hfail 9 [9] 8 2%nat); [|reflexivity|cbn; lia].
    apply (ascends_up _ 9 {| qt_root := 1; qt_parent := 8 |});
      [reflexivity|cbn; lia|].
    apply ascends_here.
Defined.

(** The walk is a function of the tree: a window has at most one chain that
    ends at a child of the root. *)
Lemma ascends_deterministic d w path t path' t' :
  ascends d w path t -> root_child d t ->
  ascends d w path' t' -> root_child d t' ->
  path = path' /\ t = t'.
Proof.
  intros H1 Ht H2 Ht'.
  pose proof (loop_reaches_top d w path t H1 Ht
                (S (length path + length path')) [] 0%nat ltac:(lia)) as E1.
  pose proof (loop_reaches_top d w path' t' H2 Ht'
                (S (length path + length path')) [] 0%nat ltac:(lia)) as E2.
  rewrite E1 in E2. injection E2 as Et Eq _. subst t'.
  split; [|done]. by apply app_inv_tail in Eq.
Qed.

(** ** The factory functions *)

(** C9. Without a display connection both factory functions return null.
    With one, CreateForWindow returns null when the walk returns None, and
    otherwise an object on the window the walk returned; CreateForScreen
    returns an object on the default root window. *)
Theorem factories_null_or_bound (options : DesktopCaptureOptions) :
  (x_display options = None ->
     (forall fuel window, CreateForWindow fuel options window = Some None)
     /\ (forall screen, CreateForScreen options screen = None))
  /\ (forall d, x_display options = Some d ->
     (forall fuel window r,
         GetTopLevelWindow fuel (display d) window = Some r ->
         toplevel r = None_ ->
         CreateForWindow fuel options window = Some None)
     /\ (forall fuel window r,
         GetTopLevelWindow fuel (display d) window = Some r ->
         toplevel r <> None_ ->
         exists m, CreateForWindow fuel options window = Some (Some m)
                   /\ m = new_MouseCursorMonitorX11 options (toplevel r)
                   /\ window_ m = toplevel r /\ x_display_ m = Some d)
     /\ (forall screen,
         exists m, CreateForScreen options screen = Some m
                   /\ m = new_MouseCursorMonitorX11 options
                            (DefaultRootWindow (display d))
                   /\ window_ m = DefaultRootWindow (display d)
                   /\ x_display_ m = Some d)).
Proof.
  unfold CreateForWindow, CreateForScreen. split.
  - intros ->. by split.
  - intros d Hd. rewrite Hd. split; [|split].
    + intros fuel window r -> Hnone. cbn. by rewrite bool_decide_true.
    + intros fuel window r -> Hsome. cbn. rewrite bool_decide_false by done.
      eexists. split; [reflexivity|]. cbn. by rewrite Hd.
    + intros screen. eexists. split; [reflexivity|]. cbn. by rewrite Hd.
Qed.

Lemma factories_null_or_bound_witness :
  (CreateForWindow 3 Sample.no_display 6 = Some None
   /\ CreateForScreen Sample.no_display 0 = None)
  /\ CreateForWindow 2 Sample.options 9 = Some None
  /\ (exists m, CreateForWindow 3 Sample.options 6 = Some (Some m)
                /\ window_ m = 4)
  /\ (exists m, CreateForScreen Sample.options 0 = Some m /\ window_ m = 1).
Proof.
  destruct (factories_null_or_bound Sample.no_display) as [Hnull _].
  destruct (factories_null_or_bound Sample.options) as [_ Hdpy].
  destruct (Hdpy {| display := Sample.dpy |} eq_refl) as (Hfail & Hok & Hscr).
  split; [|split; [|split]].
  - destruct (Hnull eq_refl) as [Hw Hs]. split; [apply Hw|apply Hs].
  - apply (Hfail 2%nat 9
             {| toplevel := None_; queried := [9; 8]; ascensions := 1 |});
      reflexivity.
  - destruct (Hok 3%nat 6
                {| toplevel := 4; queried := [6; 5; 4]; ascensions := 2 |}
                eq_refl) as (m & Hm & _ & Hwin & _); [cbn; unfold None_; lia|].
    exists m. split; [exact Hm|exact Hwin].
  - destruct (Hscr 0) as (m & Hm & _ & Hwin & _).
    exists m. split; [exact Hm|exact Hwin].
Defined.

(** C10. CreateForScreen does not look at its screen argument: with a
    display connection, any two screen ids give the same object, bound to
    the default root window of the display. *)
Theorem CreateForScreen_ignores_screen (options : DesktopCaptureOptions)
    (d : SharedXDisplay) (screen screen' : ScreenId) :
  x_display options = Some d ->
  CreateForScreen options screen = CreateForScreen options screen'
  /\ exists m, CreateForScreen options screen = Some m
               /\ window_ m = DefaultRootWindow (display d).
Proof.
  unfold CreateForScreen. intros ->. split; [reflexivity|].
  eexists. split; reflexivity.
Qed.

Lemma CreateForScreen_ignores_screen_witness :
  CreateForScreen Sample.options 0 = CreateForScreen Sample.options 1
  /\ exists m, CreateForScreen Sample.options 0 = Some m /\ window_ m = 1.
Proof.
  apply (CreateForScreen_ignores_screen Sample.options
           {| display := Sample.dpy |} 0 1).
  reflexivity.
Defined.

(** ** The pixel loop *)

Lemma to_int_small v : 0 <= v <= INT_MAX -> to_int v = v.
Proof.
  unfold to_int, INT_MAX. intros Hv.
  rewrite Z.mod_small by lia. lia.
Qed.

Lemma convert_pixels_fills src :
  forall n dst buffer,
    length src = n -> length buffer = (dst + n)%nat ->
    convert_pixels n src dst buffer =
      take dst buffer ++ map static_cast_uint32 src.
Proof.
  induction src as [|p src IH]; intros n dst buffer <- Hlen; cbn in *.
  - rewrite take_ge by lia. by rewrite app_nil_r.
  - rewrite IH; [|done|rewrite length_insert; lia].
    rewrite (take_S_r _ _ (static_cast_uint32 p))
      by (apply list_lookup_insert_eq; lia).
    rewrite take_insert_ge by done. by rewrite <- app_assoc.
Qed.

Lemma cursor_of_image_data img :
  0 <= width img -> 0 <= height img ->
  width img * height img <= INT_MAX ->
  length (pixels img) = Z.to_nat (width img * height img) ->
  data (image (cursor_of_image img)) = map static_cast_uint32 (pixels img).
Proof.
  intros Hw Hh Hmax Hlen. cbn.
  rewrite to_int_small by nia.
  rewrite convert_pixels_fills; [done|done|].
  by rewrite length_replicate.
Qed.

Lemma static_cast_uint32_small (ps : list Z) :
  Forall (fun p => 0 <= p < 2 ^ 32) ps -> map static_cast_uint32 ps = ps.
Proof.
  induction 1 as [|p ps Hp _ IH]; cbn; [done|].
  unfold static_cast_uint32 at 1. rewrite Z.mod_small by done. by rewrite IH.
Qed.

(** ** The member functions *)

Lemma CaptureCursor_ok o cs reply img :
  have_xfixes_ o = true -> fetch_ok reply img ->
  CaptureCursor reply o cs =
    Returned tt (set_cursor_shape_ (Some (cursor_of_image img)) o) cs.
Proof.
  intros Hx [Himg Herr]. unfold CaptureCursor. run.
  rewrite Hx, Himg, Herr. by rewrite bool_decide_false by (intros H; by apply H).
Qed.

Lemma CaptureCursor_failed o cs reply :
  have_xfixes_ o = true -> fetch_failed reply ->
  CaptureCursor reply o cs = Returned tt o cs.
Proof.
  intros Hx Hfail. unfold CaptureCursor. run. rewrite Hx.
  destruct Hfail as [Hnone|Herr]; [by rewrite Hnone|].
  destruct (fetched reply) as [img|]; [|done].
  by rewrite bool_decide_true.
Qed.

(** The handler always returns false, makes no call, and changes nothing
    but the pending shape; without XFixes it changes nothing. *)
Lemma HandleXEvent_returns event reply o cs :
  exists shape,
    HandleXEvent event reply o cs = Returned false (set_cursor_shape_ shape o) cs
    /\ (have_xfixes_ o = false -> shape = cursor_shape_ o).
Proof.
  unfold HandleXEvent, CaptureCursor. run.
  destruct (have_xfixes_ o) eqn:Hx; cbn;
    [|exists (cursor_shape_ o); by rewrite set_cursor_shape_same].
  destruct (bool_decide (type event = _)); cbn;
    [|exists (cursor_shape_ o); by rewrite set_cursor_shape_same].
  destruct (bool_decide (subtype event = _)); cbn;
    [|exists (cursor_shape_ o); by rewrite set_cursor_shape_same].
  rewrite Hx. cbn.
  destruct (fetched reply) as [img|]; cbn;
    [|exists (cursor_shape_ o); by rewrite set_cursor_shape_same].
  destruct (bool_decide (fetch_error reply <> 0)); cbn;
    [exists (cursor_shape_ o); by rewrite set_cursor_shape_same|].
  by eexists.
Qed.

Lemma HandleXEvent_shape_change event reply img o cs :
  have_xfixes_ o = true -> shape_change o event -> fetch_ok reply img ->
  HandleXEvent event reply o cs =
    Returned false (set_cursor_shape_ (Some (cursor_of_image img)) o) cs.
Proof.
  intros Hx [Htype Hsub] Hok.
  pose proof (CaptureCursor_ok o cs reply img Hx Hok) as Hcap.
  unfold HandleXEvent. run. rewrite Hx. cbn.
  rewrite !bool_decide_true by done. cbn. by rewrite Hcap.
Qed.

Lemma ProcessPendingXEvents_returns pending :
  forall o cs, exists shape,
    ProcessPendingXEvents pending o cs =
      Returned tt (set_cursor_shape_ shape o) cs
    /\ (have_xfixes_ o = false -> shape = cursor_shape_ o).
Proof.
  induction pending as [|[event reply] rest IH]; intros o cs; cbn.
  - exists (cursor_shape_ o). by rewrite set_cursor_shape_same.
  - destruct (HandleXEvent_returns event reply o cs) as (shape & E & Hoff).
    unfold bind at 1. rewrite E.
    destruct (IH (set_cursor_shape_ shape o) cs) as (shape' & E' & Hoff').
    exists shape'. rewrite E', set_cursor_shape_twice. split; [done|].
    intros Hx. rewrite Hoff' by done. cbn. by apply Hoff.
Qed.

(** What one [Capture] does on an initialised object. *)
Lemma Capture_returns o cb pending pointer cs :
  callback_ o = Some cb ->
  exists shape,
    ProcessPendingXEvents pending o cs =
      Returned tt (set_cursor_shape_ shape o) cs
    /\ (have_xfixes_ o = false -> shape = cursor_shape_ o)
    /\ Capture pending pointer o cs =
         Returned tt (set_cursor_shape_ None o)
           (cs ++ shape_call cb shape ++ position_call cb o pointer).
Proof.
  intros Hcb.
  destruct (ProcessPendingXEvents_returns pending o cs) as (shape & E & Hoff).
  exists shape. split; [done|]. split; [done|].
  unfold Capture, position_call. run. rewrite Hcb. cbn. rewrite E. cbn.
  destruct shape as [s|]; cbn; case_bool_decide; cbn;
    rewrite ?set_cursor_shape_twice, ?app_nil_r, <- ?app_assoc; done.
Qed.

Lemma Capture_no_events o cb pointer cs :
  callback_ o = Some cb ->
  Capture [] pointer o cs =
    Returned tt (set_cursor_shape_ None o)
      (cs ++ shape_call cb (cursor_shape_ o) ++ position_call cb o pointer).
Proof.
  intros Hcb.
  destruct (Capture_returns o cb [] pointer cs Hcb) as (shape & E & _ & ->).
  cbn in E. unfold ret in E. injection E as E.
  apply (f_equal cursor_shape_) in E. cbn in E. by rewrite <- E.
Qed.

Lemma Capture_uninitialised o pending pointer cs :
  callback_ o = None -> Capture pending pointer o cs = AssertionFailed o cs.
Proof. intros Hcb. unfold Capture. run. by rewrite Hcb. Qed.

Lemma bind_returned {A B} (m : M A) (k : A -> M B) o cs a o' cs' :
  m o cs = Returned a o' cs' -> bind m k o cs = k a o' cs'.
Proof. unfold bind. by intros ->. Qed.

Lemma bind_failed {A B} (m : M A) (k : A -> M B) o cs o' cs' :
  m o cs = AssertionFailed o' cs' -> bind m k o cs = AssertionFailed o' cs'.
Proof. unfold bind. by intros ->. Qed.

(** ** What reaches the consumer *)

Lemma shapes_delivered_app cs cs' :
  shapes_delivered (cs ++ cs') = shapes_delivered cs ++ shapes_delivered cs'.
Proof. apply omap_app. Qed.

Lemma positions_delivered_app cs cs' :
  positions_delivered (cs ++ cs') =
    positions_delivered cs ++ positions_delivered cs'.
Proof. apply omap_app. Qed.

Lemma shapes_of_shape_call cb shape :
  shapes_delivered (shape_call cb shape) = option_list shape.
Proof. by destruct shape. Qed.

Lemma shapes_of_position_call cb o pointer :
  shapes_delivered (position_call cb o pointer) = [].
Proof. unfold position_call. by case_bool_decide. Qed.

Lemma positions_of_shape_call cb shape :
  positions_delivered (shape_call cb shape) = [].
Proof. by destruct shape. Qed.

Lemma shapes_of_Capture o cb pointer cs :
  callback_ o = Some cb ->
  shapes_delivered (calls_of (Capture [] pointer o cs)) =
    shapes_delivered cs ++ option_list (cursor_shape_ o).
Proof.
  intros Hcb. rewrite (Capture_no_events o cb pointer cs Hcb). cbn.
  rewrite !shapes_delivered_app, shapes_of_shape_call, shapes_of_position_call.
  by rewrite app_nil_r.
Qed.

(** A successful fetch followed by a [Capture] that finds no event: the
    consumer gets the converted image. *)
Lemma fetch_then_Capture o cb reply img pointer cs :
  have_xfixes_ o = true -> callback_ o = Some cb -> fetch_ok reply img ->
  shapes_delivered
    (calls_of ((CaptureCursor reply ;; Capture [] pointer) o cs)) =
    shapes_delivered cs ++ [cursor_of_image img].
Proof.
  intros Hx Hcb Hok.
  rewrite (bind_returned _ _ _ _ _ _ _ (CaptureCursor_ok o cs reply img Hx Hok)).
  by rewrite (shapes_of_Capture _ cb).
Qed.

(** ** The cursor shape *)

(** C1, as the code has it. The hotspot of the delivered shape is the
    minimum of the reported hotspot and the image size, coordinate by
    coordinate: it lies in the range from 0 to the width (to the height),
    both ends included. *)
Theorem hotspot_is_min_with_size o cb reply img pointer cs :
  have_xfixes_ o = true -> callback_ o = Some cb -> fetch_ok reply img ->
  0 <= width img -> 0 <= height img -> 0 <= xhot img -> 0 <= yhot img ->
  exists shape,
    shapes_delivered
      (calls_of ((CaptureCursor reply ;; Capture [] pointer) o cs)) =
      shapes_delivered cs ++ [shape]
    /\ hotspot shape = {| vx := Z.min (width img) (xhot img);
                          vy := Z.min (height img) (yhot img) |}
    /\ 0 <= vx (hotspot shape) <= width img
    /\ 0 <= vy (hotspot shape) <= height img
    /\ vx (hotspot shape) <= xhot img
    /\ vy (hotspot shape) <= yhot img.
Proof.
  intros Hx Hcb Hok Hw Hh Hxh Hyh.
  exists (cursor_of_image img).
  split; [by apply (fetch_then_Capture o cb)|].
  split; [reflexivity|]. cbn. lia.
Qed.

Lemma hotspot_is_min_with_size_witness :
  exists shape,
    shapes_delivered
      (calls_of ((CaptureCursor (Sample.good Sample.image_10x10) ;;
                  Capture [] (Sample.pointer_over 1 4)) Sample.active [])) =
      [shape]
    /\ hotspot shape = {| vx := 10; vy := 3 |}.
Proof.
  destruct (hotspot_is_min_with_size Sample.active 7%nat
              (Sample.good Sample.image_10x10) Sample.image_10x10
              (Sample.pointer_over 1 4) [])
    as (shape & Hcalls & Hhot & _);
    [reflexivity|reflexivity|split; reflexivity|cbn; lia..|].
  exists shape. split; [exact Hcalls|exact Hhot].
Defined.

(** For the 10 x 10 image with reported hotspot (15, 3) the consumer gets
    the hotspot (10, 3), which is not (9, 3) and not left of the width. *)
Lemma hotspot_reaches_width :
  map hotspot
    (shapes_delivered
       (calls_of ((CaptureCursor (Sample.good Sample.image_10x10) ;;
                   Capture [] (Sample.pointer_over 1 4)) Sample.active []))) =
    [{| vx := 10; vy := 3 |}]
  /\ {| vx := 10; vy := 3 |} <> {| vx := 9; vy := 3 |}
  /\ ~ (10 < width Sample.image_10x10).
Proof.
  split; [reflexivity|]. split; [discriminate|]. cbn. lia.
Qed.

(** C4, for the images whose width * height fits in an int. The delivered
    bitmap has the size of the native image and holds, in the order of the
    native buffer, each of its width * height elements reduced to 32 bits;
    elements that fit in 32 bits are delivered as they are. *)
Theorem pixels_are_converted o cb reply img pointer cs :
  have_xfixes_ o = true -> callback_ o = Some cb -> fetch_ok reply img ->
  0 <= width img -> 0 <= height img ->
  width img * height img <= INT_MAX ->
  length (pixels img) = Z.to_nat (width img * height img) ->
  exists shape,
    shapes_delivered
      (calls_of ((CaptureCursor reply ;; Capture [] pointer) o cs)) =
      shapes_delivered cs ++ [shape]
    /\ frame_size (image shape) =
         {| size_width := width img; size_height := height img |}
    /\ length (data (image shape)) = Z.to_nat (width img * height img)
    /\ data (image shape) = map static_cast_uint32 (pixels img)
    /\ (forall (i : nat) (p : Z),
           pixels img !! i = Some p ->
           data (image shape) !! i = Some (p mod 2 ^ 32))
    /\ (Forall (fun p => 0 <= p < 2 ^ 32) (pixels img) ->
        data (image shape) = pixels img).
Proof.
  intros Hx Hcb Hok Hw Hh Hmax Hlen.
  pose proof (cursor_of_image_data img Hw Hh Hmax Hlen) as Hdata.
  exists (cursor_of_image img).
  split; [by apply (fetch_then_Capture o cb)|].
  split; [reflexivity|].
  split; [by rewrite Hdata, length_map|].
  split; [exact Hdata|]. split.
  - intros i p Hp. rewrite Hdata.
    change (map static_cast_uint32 (pixels img))
      with (static_cast_uint32 <$> pixels img).
    by rewrite list_lookup_fmap, Hp.
  - intros Hsmall. by rewrite Hdata, static_cast_uint32_small.
Qed.

Lemma pixels_are_converted_witness :
  exists shape,
    shapes_delivered
      (calls_of ((CaptureCursor (Sample.good Sample.image_2x2) ;;
                  Capture [] (Sample.pointer_over 1 4)) Sample.active [])) =
      [shape]
    /\ data (image shape) =
         [2864434397; 287454020; 1432778632; 2578103244].
Proof.
  destruct (pixels_are_converted Sample.active 7%nat
              (Sample.good Sample.image_2x2) Sample.image_2x2
              (Sample.pointer_over 1 4) [])
    as (shape & Hcalls & _ & _ & _ & _ & Hsame);
    [reflexivity|reflexivity|split; reflexivity|cbn; lia|cbn; lia
    |unfold INT_MAX; cbn; lia|reflexivity|].
  exists shape. split; [exact Hcalls|].
  apply Hsame. cbn. repeat constructor; lia.
Defined.

(** Where the int product of width and height wraps to a value that is not
    positive, the pixel loop is not entered and the bitmap is as it was
    allocated. *)
Lemma loop_skipped_when_wrapped img :
  to_int (width img * height img) <= 0 ->
  data (image (cursor_of_image img)) =
    data (BasicDesktopFrame
            {| size_width := width img; size_height := height img |}).
Proof.
  intros Hwrap. unfold cursor_of_image. cbn [image data].
  destruct (Z.to_nat (to_int (width img * height img))) eqn:E;
    [reflexivity|lia].
Qed.

Lemma zeros_are_not_ones (n : nat) :
  (0 < n)%nat -> replicate n 0 <> map static_cast_uint32 (replicate n 1).
Proof. destruct n as [|n]; [lia|]. cbn. discriminate. Qed.

(** For the image of 46341 x 46341 elements, all 1, the fetch succeeds and
    the shape is delivered, but the int product of width and height has
    wrapped: the bitmap is as it was allocated, and is not the native
    elements reduced to 32 bits. *)
Lemma pixels_unconverted_above_INT_MAX :
  0 <= width Sample.image_46341 /\ 0 <= height Sample.image_46341
  /\ length (pixels Sample.image_46341) =
       Z.to_nat (width Sample.image_46341 * height Sample.image_46341)
  /\ INT_MAX < width Sample.image_46341 * height Sample.image_46341
  /\ shapes_delivered
       (calls_of ((CaptureCursor (Sample.good Sample.image_46341) ;;
                   Capture [] (Sample.pointer_over 1 4)) Sample.active [])) =
       [cursor_of_image Sample.image_46341]
  /\ data (image (cursor_of_image Sample.image_46341)) =
       data (BasicDesktopFrame {| size_width := 46341; size_height := 46341 |})
  /\ data (image (cursor_of_image Sample.image_46341)) <>
       map static_cast_uint32 (pixels Sample.image_46341).
Proof.
  assert (Hwrap : to_int (width Sample.image_46341
                          * height Sample.image_46341) <= 0).
  { change (to_int (46341 * 46341) <= 0). by vm_compute. }
  change (width Sample.image_46341) with 46341.
  change (height Sample.image_46341) with 46341.
  change (pixels Sample.image_46341)
    with (replicate (Z.to_nat (46341 * 46341)) 1).
  split; [lia|]. split; [lia|].
  split; [apply length_replicate|].
  split; [unfold INT_MAX; lia|].
  split.
  { exact (fetch_then_Capture Sample.active 7%nat
             (Sample.good Sample.image_46341) Sample.image_46341
             (Sample.pointer_over 1 4) [] eq_refl eq_refl
             (conj eq_refl eq_refl)). }
  rewrite (loop_skipped_when_wrapped Sample.image_46341 Hwrap).
  change (width Sample.image_46341) with 46341.
  change (height Sample.image_46341) with 46341.
  split; [reflexivity|].
  change (data (BasicDesktopFrame
                  {| size_width := 46341; size_height := 46341 |}))
    with (replicate (Z.to_nat (46341 * 46341)) 0).
  apply zeros_are_not_ones. lia.
Qed.

(** C7. When the fetch returns no image, or the error trap holds an error,
    CaptureCursor leaves the object, and so the pending shape, as it was,
    and makes no call. *)
Theorem CaptureCursor_failure_keeps_pending o cs reply :
  fetch_failed reply ->
  cursor_shape_ (self_of (CaptureCursor reply o cs)) = cursor_shape_ o
  /\ self_of (CaptureCursor reply o cs) = o
  /\ calls_of (CaptureCursor reply o cs) = cs
  /\ (have_xfixes_ o = true -> CaptureCursor reply o cs = Returned tt o cs).
Proof.
  intros Hfail.
  destruct (have_xfixes_ o) eqn:Hx.
  - rewrite (CaptureCursor_failed o cs reply Hx Hfail). by cbn.
  - unfold CaptureCursor. run. rewrite Hx. by cbn.
Qed.

Lemma CaptureCursor_failure_keeps_pending_witness :
  let pending := set_cursor_shape_
                   (Some (cursor_of_image Sample.image_2x2)) Sample.active in
  CaptureCursor Sample.no_image pending [] = Returned tt pending []
  /\ CaptureCursor {| fetched := Some Sample.image_10x10; fetch_error := 3 |}
       Sample.active [] = Returned tt Sample.active [].
Proof.
  split.
  - apply (CaptureCursor_failure_keeps_pending _ [] Sample.no_image);
      [left|]; reflexivity.
  - apply (CaptureCursor_failure_keeps_pending Sample.active []
             {| fetched := Some Sample.image_10x10; fetch_error := 3 |});
      [right; cbn; lia|reflexivity].
Defined.

(** ** The cursor position *)

Lemma position_state_cases window p :
  (qp_result p = false \/ qp_error p <> 0 ->
     position_state window p = OUTSIDE)
  /\ (qp_result p = true -> qp_error p = 0 -> window = qp_root_window p ->
     position_state window p = INSIDE)
  /\ (qp_result p = true -> qp_error p = 0 -> window <> qp_root_window p ->
     (position_state window p = INSIDE <-> qp_child_window p <> None_)).
Proof.
  unfold position_state. split; [|split].
  - intros [-> | Herr]; [done|].
    rewrite (bool_decide_true _ Herr). by rewrite orb_true_r.
  - intros -> Herr Hroot. cbn.
    rewrite bool_decide_false by (intros H; by apply H).
    by rewrite (bool_decide_true _ Hroot).
  - intros -> Herr Hroot. cbn.
    rewrite bool_decide_false by (intros H; by apply H).
    rewrite (bool_decide_false _ Hroot). cbn.
    case_bool_decide; split; intros; done.
Qed.

(** C2. In the mode SHAPE_AND_POSITION every Capture delivers one position,
    with the coordinates the pointer query gave relative to the window, and
    with the state OUTSIDE when the query failed or the error trap holds an
    error; otherwise INSIDE when the monitored window is the root window
    the query reports; otherwise INSIDE exactly when the reported child
    window is not None. *)
Theorem Capture_position_state o cb pending pointer cs :
  callback_ o = Some cb -> mode_ o = SHAPE_AND_POSITION ->
  exists o' cs' state,
    Capture pending pointer o cs = Returned tt o' cs'
    /\ positions_delivered cs' =
         positions_delivered cs ++
           [(state, {| vx := qp_win_x pointer; vy := qp_win_y pointer |})]
    /\ (qp_result pointer = false \/ qp_error pointer <> 0 ->
          state = OUTSIDE)
    /\ (qp_result pointer = true -> qp_error pointer = 0 ->
          window_ o = qp_root_window pointer -> state = INSIDE)
    /\ (qp_result pointer = true -> qp_error pointer = 0 ->
          window_ o <> qp_root_window pointer ->
          (state = INSIDE <-> qp_child_window pointer <> None_)).
Proof.
  intros Hcb Hmode.
  destruct (Capture_returns o cb pending pointer cs Hcb)
    as (shape & _ & _ & E).
  eexists _, _, (position_state (window_ o) pointer).
  split; [exact E|]. split; [|apply position_state_cases].
  rewrite !positions_delivered_app, positions_of_shape_call.
  unfold position_call. by rewrite (bool_decide_true _ Hmode).
Qed.

Lemma Capture_position_state_witness :
  positions_delivered
    (calls_of (Capture [] (Sample.pointer_over 1 0) Sample.active [])) =
    [(OUTSIDE, {| vx := 3; vy := 4 |})]
  /\ positions_delivered
    (calls_of (Capture [] (Sample.pointer_over 1 12) Sample.active [])) =
    [(INSIDE, {| vx := 3; vy := 4 |})].
Proof.
  split.
  - destruct (Capture_position_state Sample.active 7%nat []
                (Sample.pointer_over 1 0) [] eq_refl eq_refl)
      as (o' & cs' & state & E & Hpos & _ & _ & Hwin).
    rewrite E. unfold calls_of. rewrite Hpos. cbn.
    destruct state; [|reflexivity].
    exfalso. apply (proj1 (Hwin eq_refl eq_refl ltac:(cbn; lia)) eq_refl).
    reflexivity.
  - destruct (Capture_position_state Sample.active 7%nat []
                (Sample.pointer_over 1 12) [] eq_refl eq_refl)
      as (o' & cs' & state & E & Hpos & _ & _ & Hwin).
    rewrite E. unfold calls_of. rewrite Hpos. cbn.
    rewrite (proj2 (Hwin eq_refl eq_refl ltac:(cbn; lia)));
      [reflexivity|cbn; unfold None_; lia].
Defined.

(** ** The pending shape *)

(** C3. After two shape-change notifications, each with a successful
    fetch, the next Capture (which finds no further event) delivers one
    shape, the one made from the second image, and leaves no shape pending:
    the one made from the first image is never delivered. *)
Theorem latest_shape_wins o cb e1 e2 r1 r2 img1 img2 pointer cs :
  callback_ o = Some cb -> have_xfixes_ o = true ->
  shape_change o e1 -> shape_change o e2 ->
  fetch_ok r1 img1 -> fetch_ok r2 img2 ->
  exists o' cs',
    (HandleXEvent e1 r1 ;; HandleXEvent e2 r2 ;; Capture [] pointer) o cs =
      Returned tt o' cs'
    /\ shapes_delivered cs' = shapes_delivered cs ++ [cursor_of_image img2]
    /\ cursor_shape_ o' = None
    /\ forall pointer',
         shapes_delivered (calls_of (Capture [] pointer' o' cs')) =
           shapes_delivered cs'.
Proof.
  intros Hcb Hx He1 He2 Hr1 Hr2.
  rewrite (bind_returned _ _ _ _ _ _ _
             (HandleXEvent_shape_change e1 r1 img1 o cs Hx He1 Hr1)).
  cbv beta.
  rewrite (bind_returned _ _ _ _ _ _ _
             (HandleXEvent_shape_change e2 r2 img2
                (set_cursor_shape_ (Some (cursor_of_image img1)) o) cs
                Hx He2 Hr2)).
  cbv beta. rewrite set_cursor_shape_twice.
  rewrite (Capture_no_events
             (set_cursor_shape_ (Some (cursor_of_image img2)) o)
             cb pointer cs Hcb).
  eexists _, _. split; [reflexivity|].
  split.
  { rewrite !shapes_delivered_app, shapes_of_shape_call.
    by rewrite shapes_of_position_call, app_nil_r. }
  split; [reflexivity|].
  intros pointer'. rewrite (shapes_of_Capture _ cb) by exact Hcb.
  cbn. by rewrite app_nil_r.
Qed.

Lemma latest_shape_wins_witness :
  shapes_delivered
    (calls_of ((HandleXEvent Sample.notify (Sample.good Sample.image_10x10) ;;
                HandleXEvent Sample.notify (Sample.good Sample.image_2x2) ;;
                Capture [] (Sample.pointer_over 1 4)) Sample.active [])) =
    [cursor_of_image Sample.image_2x2].
Proof.
  destruct (latest_shape_wins Sample.active 7%nat Sample.notify Sample.notify
              (Sample.good Sample.image_10x10) (Sample.good Sample.image_2x2)
              Sample.image_10x10 Sample.image_2x2 (Sample.pointer_over 1 4) [])
    as (o' & cs' & E & Hshapes & _);
    [reflexivity|reflexivity|split; reflexivity|split; reflexivity
    |split; reflexivity|split; reflexivity|].
  rewrite E. exact Hshapes.
Defined.

(** ** An object without XFixes *)

Lemma inert_bind {A B} (m : M A) (k : A -> M B) cs0 o cs :
  inert cs0 (m o cs) ->
  (forall a o' cs', inert cs0 (Returned a o' cs') -> inert cs0 (k a o' cs')) ->
  inert cs0 (bind m k o cs).
Proof.
  unfold bind. intros Hm Hk.
  destruct (m o cs) as [a o' cs'|o' cs']; [by apply Hk|exact Hm].
Qed.

Lemma HandleXEvent_inert event reply cs0 o cs :
  inert cs0 (Returned tt o cs) ->
  inert cs0 (HandleXEvent event reply o cs).
Proof.
  intros (Hx & Hshape & Hcs). cbn in Hx, Hshape, Hcs.
  destruct (HandleXEvent_returns event reply o cs) as (shape & -> & Hoff).
  rewrite (Hoff Hx), set_cursor_shape_same. by repeat split.
Qed.

Lemma Capture_inert pending pointer cs0 o cs :
  inert cs0 (Returned tt o cs) ->
  inert cs0 (Capture pending pointer o cs).
Proof.
  intros (Hx & Hshape & Hcs). cbn in Hx, Hshape, Hcs.
  destruct (callback_ o) as [cb|] eqn:Hcb.
  - destruct (Capture_returns o cb pending pointer cs Hcb)
      as (shape & _ & Hoff & ->).
    rewrite (Hoff Hx), Hshape. repeat split; cbn; [done..|].
    rewrite shapes_delivered_app, shapes_of_position_call.
    by rewrite app_nil_r.
  - rewrite (Capture_uninitialised o pending pointer cs Hcb).
    by repeat split.
Qed.

Lemma run_steps_inert steps cs0 :
  forall o cs,
    inert cs0 (Returned tt o cs) -> inert cs0 (run_steps steps o cs).
Proof.
  induction steps as [|[pending pointer|event reply] rest IH];
    intros o cs Hin; cbn.
  - exact Hin.
  - apply inert_bind; [by apply Capture_inert|].
    intros [] o' cs' Hin'. by apply IH.
  - apply inert_bind; [by apply HandleXEvent_inert|].
    intros a o' cs' Hin'. by apply IH.
Qed.

Lemma destroy_inert cs0 o cs :
  inert cs0 (Returned tt o cs) -> inert cs0 (destroy o cs).
Proof.
  intros (Hx & Hshape & Hcs). cbn in Hx, Hshape, Hcs.
  unfold destroy. run. rewrite Hx. by repeat split.
Qed.

Lemma Init_without_xfixes o cs cb mode ext reply :
  callback_ o = None -> ext_available ext = false ->
  Init (Some cb) mode ext reply o cs =
    Returned tt (set_xfixes ext (set_mode_ mode (set_callback_ (Some cb) o)))
      (cs ++ [LOG_INFO]).
Proof.
  intros Hcb Hext. unfold Init. run. rewrite Hcb, Hext. reflexivity.
Qed.

Lemma Init_inert callback mode ext reply o cs :
  ext_available ext = false ->
  inert cs (Returned tt o cs) -> callback_ o = None ->
  inert cs (Init callback mode ext reply o cs).
Proof.
  intros Hext (Hx & Hshape & _) Hcb. cbn in Hx, Hshape.
  destruct callback as [cb|].
  - rewrite Init_without_xfixes by done. repeat split; cbn; [done..|].
    rewrite shapes_delivered_app. cbn. by rewrite app_nil_r.
  - unfold Init. run. rewrite Hcb. cbn. by repeat split.
Qed.

(** C5. When XFixesQueryExtension reports the extension missing at Init, no
    shape is ever handed to the consumer: whatever the consumer passes to
    Init, however many Capture calls follow, whatever events are pending
    or handed to the object, up to and including its destruction. *)
Theorem no_xfixes_no_shape options window callback mode ext reply steps :
  ext_available ext = false ->
  shapes_delivered
    (calls_of ((Init callback mode ext reply ;; run_steps steps ;; destroy)
                 (new_MouseCursorMonitorX11 options window) [])) = [].
Proof.
  intros Hext.
  assert (H : inert []
                ((Init callback mode ext reply ;; run_steps steps ;; destroy)
                   (new_MouseCursorMonitorX11 options window) []));
    [|by destruct H as (_ & _ & H)].
  apply inert_bind; [by apply Init_inert|].
  intros [] o cs Hin.
  apply inert_bind; [by apply run_steps_inert|].
  intros [] o' cs' Hin'. by apply destroy_inert.
Qed.

Lemma no_xfixes_no_shape_witness :
  calls_of
    ((Init (Some 7%nat) SHAPE_AND_POSITION Sample.no_xfixes
        (Sample.good Sample.image_2x2) ;;
      run_steps
        [EventStep Sample.notify (Sample.good Sample.image_10x10);
         CaptureStep [(Sample.notify, Sample.good Sample.image_2x2)]
           (Sample.pointer_over 1 4);
         CaptureStep [] (Sample.pointer_over 1 0)] ;;
      destroy) Sample.fresh []) =
    [LOG_INFO;
     OnMouseCursorPosition 7%nat INSIDE {| vx := 3; vy := 4 |};
     OnMouseCursorPosition 7%nat OUTSIDE {| vx := 3; vy := 4 |}]
  /\ shapes_delivered
       (calls_of
          ((Init (Some 7%nat) SHAPE_AND_POSITION Sample.no_xfixes
              (Sample.good Sample.image_2x2) ;;
            run_steps
              [EventStep Sample.notify (Sample.good Sample.image_10x10);
               CaptureStep [(Sample.notify, Sample.good Sample.image_2x2)]
                 (Sample.pointer_over 1 4);
               CaptureStep [] (Sample.pointer_over 1 0)] ;;
            destroy) Sample.fresh [])) = [].
Proof.
  split; [reflexivity|].
  apply (no_xfixes_no_shape Sample.options 4 (Some 7%nat) SHAPE_AND_POSITION
           Sample.no_xfixes (Sample.good Sample.image_2x2)).
  reflexivity.
Defined.

(** ** Misuse *)

Lemma Init_returned callback mode ext reply o cs o' cs' :
  Init callback mode ext reply o cs = Returned tt o' cs' ->
  callback_ o = None /\ callback <> None /\ callback_ o' = callback.
Proof.
  unfold Init, CaptureCursor. run.
  destruct (callback_ o) as [cb0|]; cbn; [done|].
  destruct callback as [cb|]; cbn; [|done].
  destruct ext as [[|] event_base error_base]; cbn.
  - destruct (fetched reply) as [img|]; cbn.
    + case_bool_decide; cbn; intros [= <- <-]; by cbn.
    + intros [= <- <-]; by cbn.
  - intros [= <- <-]; by cbn.
Qed.

Lemma Init_in_without_NDEBUG callback mode ext reply :
  Init_in false callback mode ext reply = Init callback mode ext reply.
Proof. reflexivity. Qed.

(** C8, for the build in which the assertions are compiled (NDEBUG not
    defined). Init on an object that already has a callback, in particular
    on an object that an earlier Init returned from, Init with a null
    callback, and Capture on an object without a callback all stop at a
    failed assertion, with the object and the calls made so far untouched;
    so a second Init makes no call on the subscription. *)
Theorem misuse_fails_enabled_assertion (ndebug : bool) o cs callback mode ext
    reply pending pointer :
  ndebug = false ->
  (callback_ o <> None ->
     Init_in ndebug callback mode ext reply o cs = AssertionFailed o cs)
  /\ (forall callback0 mode0 ext0 reply0 o0 cs0,
        Init_in ndebug callback0 mode0 ext0 reply0 o0 cs0 = Returned tt o cs ->
        Init_in ndebug callback mode ext reply o cs = AssertionFailed o cs
        /\ subscription_calls
             (calls_of (Init_in ndebug callback mode ext reply o cs)) =
             subscription_calls cs)
  /\ Init_in ndebug None mode ext reply o cs = AssertionFailed o cs
  /\ (callback_ o = None ->
        Capture pending pointer o cs = AssertionFailed o cs).
Proof.
  intros ->. rewrite !Init_in_without_NDEBUG.
  assert (Hsecond : callback_ o <> None ->
            Init callback mode ext reply o cs = AssertionFailed o cs).
  { intros Hcb. unfold Init. run.
    destruct (callback_ o) as [cb0|]; [done|]. by destruct Hcb. }
  split; [exact Hsecond|]. split; [|split].
  - intros callback0 mode0 ext0 reply0 o0 cs0 Hfirst.
    rewrite Init_in_without_NDEBUG in Hfirst.
    destruct (Init_returned _ _ _ _ _ _ _ _ Hfirst) as (_ & Hnn & Hcb).
    rewrite Hsecond by (by rewrite Hcb). by split.
  - unfold Init. run. by destruct (callback_ o) as [cb0|].
  - apply Capture_uninitialised.
Qed.

Lemma misuse_fails_enabled_assertion_witness :
  Init_in false (Some 8%nat) SHAPE_ONLY Sample.xfixes
    (Sample.good Sample.image_2x2) Sample.active
    [XFixesSelectCursorInput 4 1; AddEventHandler 88] =
    AssertionFailed Sample.active
      [XFixesSelectCursorInput 4 1; AddEventHandler 88]
  /\ Init_in false None SHAPE_ONLY Sample.xfixes Sample.no_image
       Sample.fresh [] = AssertionFailed Sample.fresh []
  /\ Capture [] (Sample.pointer_over 1 4) Sample.fresh [] =
       AssertionFailed Sample.fresh [].
Proof.
  destruct (misuse_fails_enabled_assertion false Sample.active
              [XFixesSelectCursorInput 4 1; AddEventHandler 88]
              (Some 8%nat) SHAPE_ONLY Sample.xfixes
              (Sample.good Sample.image_2x2) [] (Sample.pointer_over 1 4)
              eq_refl)
    as (_ & Htwice & _ & _).
  destruct (misuse_fails_enabled_assertion false Sample.fresh [] None
              SHAPE_ONLY Sample.xfixes Sample.no_image []
              (Sample.pointer_over 1 4) eq_refl)
    as (_ & _ & Hnull & Hcapture).
  split; [|split].
  - apply (Htwice (Some 7%nat) SHAPE_AND_POSITION Sample.xfixes
             Sample.no_image Sample.fresh []).
    reflexivity.
  - exact Hnull.
  - apply Hcapture. reflexivity.
Defined.

(** Compiled with NDEBUG, a second Init on the object that a first Init
    returned is not stopped: it returns, replaces callback and mode, and
    calls XFixesSelectCursorInput and AddEventHandler a second time; an Init
    with a null callback returns as well. *)
Lemma second_Init_accepted_under_NDEBUG :
  Init (Some 7%nat) SHAPE_AND_POSITION Sample.xfixes Sample.no_image
    Sample.fresh [] =
    Returned tt Sample.active
      [XFixesSelectCursorInput 4 1; AddEventHandler 88]
  /\ Init_in true (Some 8%nat) SHAPE_ONLY Sample.xfixes Sample.no_image
       Sample.active [XFixesSelectCursorInput 4 1; AddEventHandler 88] =
       Returned tt
         (set_mode_ SHAPE_ONLY (set_callback_ (Some 8%nat) Sample.active))
         [XFixesSelectCursorInput 4 1; AddEventHandler 88;
          XFixesSelectCursorInput 4 1; AddEventHandler 88]
  /\ subscription_calls
       [XFixesSelectCursorInput 4 1; AddEventHandler 88;
        XFixesSelectCursorInput 4 1; AddEventHandler 88] <>
     subscription_calls [XFixesSelectCursorInput 4 1; AddEventHandler 88]
  /\ Init_in true None SHAPE_ONLY Sample.no_xfixes Sample.no_image
       Sample.fresh [] =
       Returned tt (set_mode_ SHAPE_ONLY Sample.fresh) [LOG_INFO].
Proof.
  split; [reflexivity|]. split; [reflexivity|].
  split; [discriminate|reflexivity].
Qed.

(** * Further properties of the code *)

(** ** The event handler and the event drain *)

Lemma HandleXEvent_slot event reply o cs :
  HandleXEvent event reply o cs =
    Returned false
      (set_cursor_shape_
         (overwrite (accepted o (event, reply)) (cursor_shape_ o)) o) cs.
Proof.
  unfold HandleXEvent, CaptureCursor, accepted, fetched_shape. run.
  destruct (have_xfixes_ o) eqn:Hx; cbn;
    [|by rewrite set_cursor_shape_same].
  destruct (bool_decide (type event = _)); cbn;
    [|by rewrite set_cursor_shape_same].
  destruct (bool_decide (subtype event = _)); cbn;
    [|by rewrite set_cursor_shape_same].
  rewrite Hx. cbn.
  destruct (fetched reply) as [img|]; cbn;
    [|by rewrite set_cursor_shape_same].
  destruct (bool_decide (fetch_error reply <> 0)); cbn;
    [by rewrite set_cursor_shape_same|done].
Qed.

Lemma overwrite_last (new : option MouseCursor) (l : list MouseCursor) old :
  overwrite (last l) (overwrite new old) =
    overwrite (last (match new with Some s => s :: l | None => l end)) old.
Proof.
  destruct new as [s|]; [|done]. cbn.
  rewrite last_cons. by destruct (last l).
Qed.

Lemma ProcessPendingXEvents_slot pending :
  forall o cs,
    ProcessPendingXEvents pending o cs =
      Returned tt (set_cursor_shape_ (slot_after o pending) o) cs.
Proof.
  unfold slot_after.
  induction pending as [|[event reply] rest IH]; intros o cs.
  - cbn. by rewrite set_cursor_shape_same.
  - cbn [ProcessPendingXEvents].
    rewrite (bind_returned _ _ _ _ _ _ _ (HandleXEvent_slot event reply o cs)).
    cbv beta. rewrite IH, set_cursor_shape_twice. do 2 f_equal.
    change (accepted (set_cursor_shape_ _ o)) with (accepted o).
    cbn [cursor_shape_ set_cursor_shape_]. rewrite overwrite_last.
    cbn [omap list_omap]. by destruct (accepted o (event, reply)).
Qed.

(** X5. A Capture on an object with a callback hands over at most one
    shape, before the position: the shape of the last pending event with an
    accepted fetch, else the shape that was pending before; afterwards no
    shape is pending. *)
Theorem Capture_delivers_latest o cb pending pointer cs :
  callback_ o = Some cb ->
  Capture pending pointer o cs =
    Returned tt (set_cursor_shape_ None o)
      (cs ++ shape_call cb (slot_after o pending)
          ++ position_call cb o pointer)
  /\ (length (shape_call cb (slot_after o pending)) <= 1)%nat
  /\ cursor_shape_ (self_of (Capture pending pointer o cs)) = None.
Proof.
  intros Hcb.
  destruct (Capture_returns o cb pending pointer cs Hcb)
    as (shape & E & _ & Hcap).
  rewrite ProcessPendingXEvents_slot in E. injection E as E. subst shape.
  rewrite Hcap. split; [done|]. split; [|done].
  destruct (slot_after o pending); cbn; lia.
Qed.

Lemma Capture_delivers_latest_witness :
  calls_of
    (Capture
       [(Sample.notify, Sample.good Sample.image_2x2);
        (Sample.notify, Sample.good Sample.image_10x10);
        (Sample.notify, Sample.no_image)]
       (Sample.pointer_over 1 4) Sample.active []) =
    [OnMouseCursor 7%nat (cursor_of_image Sample.image_10x10);
     OnMouseCursorPosition 7%nat INSIDE {| vx := 3; vy := 4 |}].
Proof.
  destruct (Capture_delivers_latest Sample.active 7%nat
              [(Sample.notify, Sample.good Sample.image_2x2);
               (Sample.notify, Sample.good Sample.image_10x10);
               (Sample.notify, Sample.no_image)]
              (Sample.pointer_over 1 4) [] eq_refl) as (E & _).
  rewrite E. reflexivity.
Defined.

(** X6. The handler returns false for every event, so that other handlers
    of the same code still see it, and makes no call; it changes at most
    the pending shape. An event of another type or of another subtype, and
    any event on an object without XFixes, leaves the object as it is. *)
Theorem HandleXEvent_ignores_other_events event reply o cs :
  (exists shape,
     HandleXEvent event reply o cs =
       Returned false (set_cursor_shape_ shape o) cs)
  /\ (have_xfixes_ o = false
      \/ type event <> xfixes_event_base_ o + XFixesCursorNotify
      \/ subtype event <> XFixesDisplayCursorNotify ->
      HandleXEvent event reply o cs = Returned false o cs).
Proof.
  rewrite HandleXEvent_slot. split; [by eexists|].
  intros Hother. unfold accepted. cbn [fst snd].
  assert (have_xfixes_ o
          && bool_decide (type event = xfixes_event_base_ o + XFixesCursorNotify)
          && bool_decide (subtype event = XFixesDisplayCursorNotify) = false)
    as ->.
  { destruct Hother as [-> | [Ht | Hs]]; [done| |].
    - rewrite (bool_decide_false _ Ht). by rewrite andb_false_r.
    - rewrite (bool_decide_false _ Hs). by rewrite andb_false_r. }
  cbn. by rewrite set_cursor_shape_same.
Qed.

Lemma HandleXEvent_ignores_other_events_witness :
  let pending := set_cursor_shape_
                   (Some (cursor_of_image Sample.image_2x2)) Sample.active in
  HandleXEvent {| type := 88; subtype := 1 |}
    (Sample.good Sample.image_10x10) pending [] = Returned false pending []
  /\ HandleXEvent {| type := 12; subtype := 0 |}
       (Sample.good Sample.image_10x10) pending [] = Returned false pending [].
Proof.
  split.
  - apply (HandleXEvent_ignores_other_events {| type := 88; subtype := 1 |}).
    right. right. cbn. unfold XFixesDisplayCursorNotify. lia.
  - apply (HandleXEvent_ignores_other_events {| type := 12; subtype := 0 |}).
    right. left. cbn. unfold XFixesCursorNotify. lia.
Defined.

(** ** From Init to the destructor *)

Lemma Init_with_xfixes o cs cb mode ext reply :
  callback_ o = None -> ext_available ext = true ->
  Init (Some cb) mode ext reply o cs =
    Returned tt
      (set_cursor_shape_ (overwrite (fetched_shape reply) (cursor_shape_ o))
         (set_xfixes ext (set_mode_ mode (set_callback_ (Some cb) o))))
      (cs ++ [XFixesSelectCursorInput (window_ o) XFixesDisplayCursorNotifyMask;
              AddEventHandler (ext_event_base ext + XFixesCursorNotify)]).
Proof.
  intros Hcb Hext. unfold Init, CaptureCursor, fetched_shape. run.
  rewrite Hcb, Hext. cbn. rewrite <- app_assoc. cbn. rewrite Hext.
  destruct (fetched reply) as [img|]; cbn; [|by destruct o].
  destruct (bool_decide (fetch_error reply <> 0)); cbn; [by destruct o|done].
Qed.

Lemma subscription_calls_app cs cs' :
  subscription_calls (cs ++ cs') =
    subscription_calls cs ++ subscription_calls cs'.
Proof. apply filter_app. Qed.

Lemma to_callback_no_subscription cb cs :
  Forall (to_callback cb) cs -> subscription_calls cs = [].
Proof.
  induction 1 as [|c cs Hc _ IH]; [done|].
  change (c :: cs) with ([c] ++ cs).
  rewrite subscription_calls_app, IH, app_nil_r.
  by destruct c.
Qed.

Lemma to_callback_shape_call cb shape :
  Forall (to_callback cb) (shape_call cb shape).
Proof. destruct shape; repeat constructor. Qed.

Lemma to_callback_position_call cb o pointer :
  Forall (to_callback cb) (position_call cb o pointer).
Proof. unfold position_call. case_bool_decide; repeat constructor. Qed.

Lemma positions_of_position_call cb o pointer :
  length (positions_delivered (position_call cb o pointer)) =
    if bool_decide (mode_ o = SHAPE_AND_POSITION) then 1%nat else 0%nat.
Proof. unfold position_call. by case_bool_decide. Qed.

(** What any sequence of Capture calls and events does to an object with
    a callback. *)
Lemma run_steps_returns steps :
  forall o cb cs,
    callback_ o = Some cb ->
    exists shape extra,
      run_steps steps o cs =
        Returned tt (set_cursor_shape_ shape o) (cs ++ extra)
      /\ Forall (to_callback cb) extra
      /\ length (positions_delivered extra) =
           (if bool_decide (mode_ o = SHAPE_AND_POSITION)
            then captures steps else 0%nat)
      /\ (length (shapes_delivered extra) <= captures steps)%nat.
Proof.
  induction steps as [|[pending pointer|event reply] rest IH];
    intros o cb cs Hcb; cbn [run_steps captures].
  - exists (cursor_shape_ o), [].
    rewrite set_cursor_shape_same, app_nil_r. unfold ret.
    split; [done|]. split; [constructor|].
    split; [by case_bool_decide|done].
  - destruct (Capture_returns o cb pending pointer cs Hcb)
      as (shape0 & _ & _ & E).
    rewrite (bind_returned _ _ _ _ _ _ _ E). cbv beta.
    destruct (IH (set_cursor_shape_ None o) cb
                (cs ++ shape_call cb shape0 ++ position_call cb o pointer) Hcb)
      as (shape & extra & -> & Hto & Hpos & Hshapes).
    exists shape,
      ((shape_call cb shape0 ++ position_call cb o pointer) ++ extra).
    rewrite set_cursor_shape_twice, !app_assoc.
    split; [done|]. split; [|split].
    + repeat apply Forall_app_2;
        [apply to_callback_shape_call|apply to_callback_position_call|done].
    + rewrite !positions_delivered_app, !length_app, positions_of_shape_call.
      rewrite positions_of_position_call, Hpos. cbn [mode_ set_cursor_shape_].
      destruct (bool_decide (mode_ o = SHAPE_AND_POSITION)); cbn; lia.
    + rewrite !shapes_delivered_app, !length_app, shapes_of_position_call.
      rewrite shapes_of_shape_call. destruct shape0; cbn; lia.
  - rewrite (bind_returned _ _ _ _ _ _ _ (HandleXEvent_slot event reply o cs)).
    cbv beta.
    destruct (IH (set_cursor_shape_
                    (overwrite (accepted o (event, reply)) (cursor_shape_ o)) o)
                cb cs Hcb)
      as (shape & extra & -> & Hto & Hpos & Hshapes).
    exists shape, extra. by rewrite set_cursor_shape_twice.
Qed.

(** X3. On an object with a callback no sequence of Capture calls and
    events fails an assertion (the assertion of CaptureCursor included);
    all calls made go to that callback, and every field of the object but
    the pending shape is kept. *)
Theorem steps_keep_object steps o cb cs :
  callback_ o = Some cb ->
  exists o' extra,
    run_steps steps o cs = Returned tt o' (cs ++ extra)
    /\ Forall (to_callback cb) extra
    /\ callback_ o' = Some cb
    /\ mode_ o' = mode_ o
    /\ window_ o' = window_ o
    /\ have_xfixes_ o' = have_xfixes_ o
    /\ xfixes_event_base_ o' = xfixes_event_base_ o
    /\ xfixes_error_base_ o' = xfixes_error_base_ o
    /\ x_display_ o' = x_display_ o.
Proof.
  intros Hcb.
  destruct (run_steps_returns steps o cb cs Hcb)
    as (shape & extra & E & Hto & _).
  exists (set_cursor_shape_ shape o), extra. by repeat split.
Qed.

Lemma steps_keep_object_witness :
  exists o' extra,
    run_steps
      [EventStep Sample.notify (Sample.good Sample.image_2x2);
       CaptureStep [] (Sample.pointer_over 1 0);
       EventStep Sample.notify Sample.no_image]
      Sample.active [] = Returned tt o' extra
    /\ window_ o' = 4 /\ have_xfixes_ o' = true.
Proof.
  destruct (steps_keep_object
              [EventStep Sample.notify (Sample.good Sample.image_2x2);
               CaptureStep [] (Sample.pointer_over 1 0);
               EventStep Sample.notify Sample.no_image]
              Sample.active 7%nat [] eq_refl)
    as (o' & extra & E & _ & _ & _ & Hwin & Hx & _).
  exists o', ([] ++ extra). split; [exact E|]. split; [exact Hwin|exact Hx].
Defined.

(** X4. Over any sequence of Capture calls and events on an object
    with a callback, the number of positions delivered is the number of
    Capture calls in the mode SHAPE_AND_POSITION and zero in the mode
    SHAPE_ONLY, and the number of shapes delivered is at most the number of
    Capture calls. *)
Theorem deliveries_per_Capture steps o cb cs :
  callback_ o = Some cb ->
  let cs' := calls_of (run_steps steps o cs) in
  (mode_ o = SHAPE_AND_POSITION ->
     length (positions_delivered cs') =
       (length (positions_delivered cs) + captures steps)%nat)
  /\ (mode_ o = SHAPE_ONLY ->
     positions_delivered cs' = positions_delivered cs)
  /\ (length (shapes_delivered cs') <=
        length (shapes_delivered cs) + captures steps)%nat.
Proof.
  intros Hcb.
  destruct (run_steps_returns steps o cb cs Hcb)
    as (shape & extra & E & _ & Hpos & Hshapes).
  rewrite E. cbn [calls_of].
  rewrite positions_delivered_app, shapes_delivered_app, !length_app.
  split; [|split].
  - intros Hmode. rewrite (bool_decide_true _ Hmode) in Hpos. lia.
  - intros Hmode. rewrite bool_decide_false in Hpos by (by rewrite Hmode).
    apply nil_length_inv in Hpos. by rewrite Hpos, app_nil_r.
  - lia.
Qed.

Lemma deliveries_per_Capture_witness :
  let cs' :=
    calls_of
      (run_steps
         [CaptureStep [] (Sample.pointer_over 1 0);
          EventStep Sample.notify (Sample.good Sample.image_2x2);
          EventStep Sample.notify (Sample.good Sample.image_10x10);
          CaptureStep [] (Sample.pointer_over 1 4)]
         Sample.active []) in
  length (positions_delivered cs') = 2%nat
  /\ (length (shapes_delivered cs') <= 2)%nat.
Proof.
  destruct (deliveries_per_Capture
              [CaptureStep [] (Sample.pointer_over 1 0);
               EventStep Sample.notify (Sample.good Sample.image_2x2);
               EventStep Sample.notify (Sample.good Sample.image_10x10);
               CaptureStep [] (Sample.pointer_over 1 4)]
              Sample.active 7%nat [] eq_refl) as (Hpos & _ & Hshapes).
  split; [exact (Hpos eq_refl)|exact Hshapes].
Defined.

Lemma fetched_shape_ok reply img :
  fetch_ok reply img -> fetched_shape reply = Some (cursor_of_image img).
Proof.
  intros [Himg Herr]. unfold fetched_shape. rewrite Himg, Herr.
  by rewrite bool_decide_false by (intros H; by apply H).
Qed.

Lemma fetched_shape_failed reply :
  fetch_failed reply -> fetched_shape reply = None.
Proof.
  unfold fetched_shape. intros [-> | Herr]; [done|].
  destruct (fetched reply); [|done]. by rewrite bool_decide_true.
Qed.

Lemma destroy_returns o cs :
  destroy o cs =
    Returned tt o
      (cs ++ if have_xfixes_ o
             then [RemoveEventHandler
                     (xfixes_event_base_ o + XFixesCursorNotify)]
             else []).
Proof.
  unfold destroy. run. destruct (have_xfixes_ o); cbn; [done|].
  by rewrite app_nil_r.
Qed.

(** X1. An object that finds XFixes at Init subscribes once, on its window
    and for the event code event base + XFixesCursorNotify, and its
    destructor removes the handler for that same code; between the two,
    whatever Capture calls and events occur, it makes no call on the
    subscription, and no assertion fails. *)
Theorem subscription_is_balanced options window cb mode ext reply steps :
  ext_available ext = true ->
  exists o' cs',
    lifetime (Some cb) mode ext reply steps
      (new_MouseCursorMonitorX11 options window) [] = Returned tt o' cs'
    /\ subscription_calls cs' =
         [XFixesSelectCursorInput window XFixesDisplayCursorNotifyMask;
          AddEventHandler (ext_event_base ext + XFixesCursorNotify);
          RemoveEventHandler (ext_event_base ext + XFixesCursorNotify)].
Proof.
  intros Hext. unfold lifetime.
  rewrite (bind_returned _ _ _ _ _ _ _
             (Init_with_xfixes (new_MouseCursorMonitorX11 options window) []
                cb mode ext reply eq_refl Hext)).
  cbv beta.
  match goal with
  | |- context [bind (run_steps steps) _ ?o ?cs] =>
      destruct (run_steps_returns steps o cb cs eq_refl)
        as (shape & extra & E & Hto & _)
  end.
  rewrite (bind_returned _ _ _ _ _ _ _ E). cbv beta.
  rewrite destroy_returns.
  cbn [have_xfixes_ xfixes_event_base_ set_cursor_shape_ set_xfixes].
  rewrite Hext.
  eexists _, _. split; [reflexivity|].
  rewrite !subscription_calls_app, (to_callback_no_subscription cb extra Hto).
  reflexivity.
Qed.

Lemma subscription_is_balanced_witness :
  subscription_calls
    (calls_of
       (lifetime (Some 7%nat) SHAPE_AND_POSITION Sample.xfixes
          (Sample.good Sample.image_2x2)
          [CaptureStep [(Sample.notify, Sample.good Sample.image_10x10)]
             (Sample.pointer_over 1 4)]
          Sample.fresh [])) =
    [XFixesSelectCursorInput 4 1; AddEventHandler 88; RemoveEventHandler 88].
Proof.
  destruct (subscription_is_balanced Sample.options 4 7%nat SHAPE_AND_POSITION
              Sample.xfixes (Sample.good Sample.image_2x2)
              [CaptureStep [(Sample.notify, Sample.good Sample.image_10x10)]
                 (Sample.pointer_over 1 4)] eq_refl)
    as (o' & cs' & E & Hsub).
  exact (eq_trans (f_equal (fun r => subscription_calls (calls_of r)) E) Hsub).
Defined.

(** X2. An object that does not find XFixes at Init logs that once and
    never touches the subscription: neither Init nor any Capture or event
    nor the destructor adds, selects or removes anything; all later calls go
    to the callback. An object that was never initialised is destroyed
    without any call. *)
Theorem no_xfixes_no_subscription options window cb mode ext reply steps cs :
  (ext_available ext = false ->
   exists o' extra,
     lifetime (Some cb) mode ext reply steps
       (new_MouseCursorMonitorX11 options window) [] =
       Returned tt o' (LOG_INFO :: extra)
     /\ Forall (to_callback cb) extra
     /\ subscription_calls (LOG_INFO :: extra) = [])
  /\ destroy (new_MouseCursorMonitorX11 options window) cs =
       Returned tt (new_MouseCursorMonitorX11 options window) cs.
Proof.
  split; [|reflexivity].
  intros Hext. unfold lifetime.
  rewrite (bind_returned _ _ _ _ _ _ _
             (Init_without_xfixes (new_MouseCursorMonitorX11 options window) []
                cb mode ext reply eq_refl Hext)).
  cbv beta.
  match goal with
  | |- context [bind (run_steps steps) _ ?o ?cs] =>
      destruct (run_steps_returns steps o cb cs eq_refl)
        as (shape & extra & E & Hto & _)
  end.
  rewrite (bind_returned _ _ _ _ _ _ _ E). cbv beta.
  rewrite destroy_returns.
  cbn [have_xfixes_ xfixes_event_base_ set_cursor_shape_ set_xfixes].
  rewrite Hext, app_nil_r.
  eexists _, extra. split; [reflexivity|]. split; [exact Hto|].
  change (LOG_INFO :: extra) with ([LOG_INFO] ++ extra).
  by rewrite subscription_calls_app, (to_callback_no_subscription cb extra Hto).
Qed.

Lemma no_xfixes_no_subscription_witness :
  exists extra,
    calls_of
      (lifetime (Some 7%nat) SHAPE_AND_POSITION Sample.no_xfixes
         (Sample.good Sample.image_2x2)
         [CaptureStep [(Sample.notify, Sample.good Sample.image_10x10)]
            (Sample.pointer_over 1 4)]
         Sample.fresh []) = LOG_INFO :: extra
    /\ subscription_calls (LOG_INFO :: extra) = [].
Proof.
  destruct (no_xfixes_no_subscription Sample.options 4 7%nat
              SHAPE_AND_POSITION Sample.no_xfixes
              (Sample.good Sample.image_2x2)
              [CaptureStep [(Sample.notify, Sample.good Sample.image_10x10)]
                 (Sample.pointer_over 1 4)] []) as [Hlife _].
  destruct (Hlife eq_refl) as (o' & extra & E & _ & Hsub).
  exists extra. split; [exact (f_equal calls_of E)|exact Hsub].
Defined.

(** X9. Init with XFixes present seeds the pending shape: when the fetch
    made at Init is accepted, the first Capture delivers its shape even
    though no event has arrived; when it is not, the first Capture (which
    finds no event) delivers no shape. *)
Theorem Init_seeds_first_Capture options window cb mode ext reply pointer :
  ext_available ext = true ->
  let cs := calls_of
              ((Init (Some cb) mode ext reply ;; Capture [] pointer)
                 (new_MouseCursorMonitorX11 options window) []) in
  (forall img, fetch_ok reply img ->
     shapes_delivered cs = [cursor_of_image img])
  /\ (fetch_failed reply -> shapes_delivered cs = []).
Proof.
  intros Hext cs. subst cs.
  rewrite (bind_returned _ _ _ _ _ _ _
             (Init_with_xfixes (new_MouseCursorMonitorX11 options window) []
                cb mode ext reply eq_refl Hext)).
  cbv beta. rewrite (shapes_of_Capture _ cb) by reflexivity.
  cbn [cursor_shape_ set_cursor_shape_ new_MouseCursorMonitorX11].
  split.
  - intros img Hok. by rewrite (fetched_shape_ok reply img Hok).
  - intros Hfail. by rewrite (fetched_shape_failed reply Hfail).
Qed.

Lemma Init_seeds_first_Capture_witness :
  shapes_delivered
    (calls_of
       ((Init (Some 7%nat) SHAPE_ONLY Sample.xfixes
           (Sample.good Sample.image_2x2) ;;
         Capture [] (Sample.pointer_over 1 4)) Sample.fresh [])) =
    [cursor_of_image Sample.image_2x2].
Proof.
  destruct (Init_seeds_first_Capture Sample.options 4 7%nat SHAPE_ONLY
              Sample.xfixes (Sample.good Sample.image_2x2)
              (Sample.pointer_over 1 4) eq_refl) as [Hok _].
  apply (Hok Sample.image_2x2). split; reflexivity.
Defined.

(** ** The window walk, read backwards *)

Lemma loop_sound (d : Display) fuel :
  forall w asked ups r,
    GetTopLevelWindow_loop fuel d w asked ups = Some r ->
    exists path t,
      ascends d w path t
      /\ queried r = asked ++ path ++ [t]
      /\ ascensions r = (ups + length path)%nat
      /\ (length path < fuel)%nat
      /\ ((root_child d t /\ toplevel r = t)
          \/ (XQueryTree d t = None /\ toplevel r = None_)).
Proof.
  induction fuel as [|fuel IH]; intros w asked ups r; cbn; [done|].
  destruct (XQueryTree d w) as [reply|] eqn:Hq.
  - destruct (decide (qt_parent reply = qt_root reply)) as [Hroot|Hup].
    + intros [= <-]. exists [], w. cbn.
      split; [constructor|]. split; [done|]. split; [lia|]. split; [lia|].
      left. split; [by exists reply|done].
    + intros Hrest.
      destruct (IH _ _ _ _ Hrest) as (path & t & Hasc & Hqs & Hups & Hlen & Hend).
      exists (w :: path), t.
      split; [by apply (ascends_up d w reply)|].
      split; [by rewrite Hqs, <- app_assoc|].
      split; [cbn; lia|]. split; [cbn; lia|done].
  - intros [= <-]. exists [], w. cbn.
    split; [constructor|]. split; [done|]. split; [lia|]. split; [lia|].
    by right.
Qed.

(** X7. Whatever GetTopLevelWindow returns, it got there by going up from
    the given window through windows whose parent is not the root, asking
    each window once: the number of XQueryTree calls is one more than the
    number of ascensions; and the walk ended either at a child of the root,
    which is the window returned, or at a window whose query failed, in
    which case None is returned. *)
Theorem GetTopLevelWindow_sound (d : Display) fuel w r :
  GetTopLevelWindow fuel d w = Some r ->
  exists path t,
    ascends d w path t
    /\ queried r = path ++ [t]
    /\ ascensions r = length path
    /\ length (queried r) = S (ascensions r)
    /\ (length (queried r) <= fuel)%nat
    /\ ((root_child d t /\ toplevel r = t)
        \/ (XQueryTree d t = None /\ toplevel r = None_)).
Proof.
  intros Hr.
  destruct (loop_sound d fuel w [] 0%nat r Hr)
    as (path & t & Hasc & Hqs & Hups & Hlen & Hend).
  exists path, t. cbn in Hqs, Hups.
  split; [done|]. split; [done|]. split; [done|].
  rewrite Hqs, Hups, length_app. cbn.
  split; [lia|]. split; [lia|done].
Qed.

Lemma GetTopLevelWindow_sound_witness :
  exists path t,
    ascends Sample.dpy 6 path t
    /\ path ++ [t] = [6; 5; 4]
    /\ root_child Sample.dpy t.
Proof.
  destruct (GetTopLevelWindow_sound Sample.dpy 3 6
              {| toplevel := 4; queried := [6; 5; 4]; ascensions := 2 |}
              eq_refl)
    as (path & t & Hasc & Hqs & _ & _ & _ & Hend).
  exists path, t. cbn in Hqs. split; [exact Hasc|]. split; [by rewrite Hqs|].
  destruct Hend as [[Htop _]|[_ Hnone]]; [exact Htop|].
  cbn in Hnone. unfold None_ in Hnone. lia.
Defined.

(** X8. With a display connection, CreateForWindow on a window that lies,
    through a chain of parents, below a child of the root other than None
    returns an object bound to that child of the root, not to the window
    given, and the object is not yet initialised; when the query of a
    window on the chain fails, it returns null. *)
Theorem CreateForWindow_binds_toplevel options sd fuel w path t :
  x_display options = Some sd ->
  ascends (display sd) w path t ->
  (length path < fuel)%nat ->
  (root_child (display sd) t -> t <> None_ ->
     exists m, CreateForWindow fuel options w = Some (Some m)
               /\ window_ m = t
               /\ callback_ m = None /\ have_xfixes_ m = false
               /\ cursor_shape_ m = None)
  /\ (XQueryTree (display sd) t = None ->
      CreateForWindow fuel options w = Some None).
Proof.
  intros Hd Hasc Hfuel. unfold CreateForWindow, GetTopLevelWindow.
  rewrite Hd. split.
  - intros Htop Hsome.
    rewrite (loop_reaches_top _ w path t Hasc Htop fuel [] 0%nat Hfuel).
    cbn. rewrite bool_decide_false by done. by eexists.
  - intros Hfail.
    rewrite (loop_stops_at_failure _ w path t Hasc Hfail fuel [] 0%nat Hfuel).
    cbn. by rewrite bool_decide_true.
Qed.

Lemma CreateForWindow_binds_toplevel_witness :
  (exists m, CreateForWindow 3 Sample.options 6 = Some (Some m)
             /\ window_ m = 4)
  /\ CreateForWindow 2 Sample.options 9 = Some None.
Proof.
  split.
  - destruct (CreateForWindow_binds_toplevel Sample.options
                {| display := Sample.dpy |} 3 6 [6; 5] 4 eq_refl)
      as [Hok _].
    + apply (ascends_up _ 6 {| qt_root := 1; qt_parent := 5 |});
        [reflexivity|cbn; lia|].
      apply (ascends_up _ 5 {| qt_root := 1; qt_parent := 4 |});
        [reflexivity|cbn; lia|].
      apply ascends_here.
    + cbn. lia.
    + destruct Hok as (m & Hm & Hwin & _).
      * exists {| qt_root := 1; qt_parent := 1 |}. split; reflexivity.
      * unfold None_. lia.
      * exists m. split; [exact Hm|exact Hwin].
  - destruct (CreateForWindow_binds_toplevel Sample.options
                {| display := Sample.dpy |} 2 9 [9] 8 eq_refl)
      as [_ Hfail].
    + apply (ascends_up _ 9 {| qt_root := 1; qt_parent := 8 |});
        [reflexivity|cbn; lia|].
      apply ascends_here.
    + cbn. lia.
    + apply Hfail. reflexivity.
Defined.

(** ** The bitmap *)

(** X10. Whatever the native elements hold above their low 32 bits, every
    pixel of the delivered bitmap lies in the range of uint32_t, and two
    native images of the same size whose elements agree in the low 32 bits
    give the same bitmap. *)
Theorem bitmap_is_32_bit img :
  0 <= width img -> 0 <= height img ->
  width img * height img <= INT_MAX ->
  length (pixels img) = Z.to_nat (width img * height img) ->
  Forall (fun p => 0 <= p < 2 ^ 32) (data (image (cursor_of_image img)))
  /\ forall img',
       width img' = width img -> height img' = height img ->
       map static_cast_uint32 (pixels img') =
         map static_cast_uint32 (pixels img) ->
       image (cursor_of_image img') = image (cursor_of_image img).
Proof.
  intros Hw Hh Hmax Hlen.
  pose proof (cursor_of_image_data img Hw Hh Hmax Hlen) as Hdata.
  split.
  - rewrite Hdata. apply Forall_forall. intros p Hp.
    apply list_elem_of_In, in_map_iff in Hp as (q & <- & _).
    unfold static_cast_uint32. apply Z.mod_pos_bound. lia.
  - intros img' Hw' Hh' Hsame.
    assert (Hlen' : length (pixels img') = Z.to_nat (width img' * height img')).
    { rewrite Hw', Hh', <- Hlen.
      by rewrite <- (length_map static_cast_uint32 (pixels img')), Hsame,
        length_map. }
    pose proof (cursor_of_image_data img' ltac:(lia) ltac:(lia)
                  ltac:(rewrite Hw', Hh'; lia) Hlen') as Hdata'.
    destruct (cursor_of_image img') as [[size' data'] hot'] eqn:E'.
    destruct (cursor_of_image img) as [[size0 data0] hot0] eqn:E.
    cbn in *. apply (f_equal (fun c => frame_size (image c))) in E', E.
    cbn in E', E. rewrite Hw', Hh' in E'. by rewrite <- E', <- E, Hdata', Hdata, Hsame.
Qed.

Lemma bitmap_is_32_bit_witness :
  Forall (fun p => 0 <= p < 2 ^ 32)
    (data (image (cursor_of_image Sample.image_2x2))).
Proof.
  apply (bitmap_is_32_bit Sample.image_2x2);
    [cbn; lia|cbn; lia|unfold INT_MAX; cbn; lia|reflexivity].
Defined.

(** ** What the consumer can rely on *)

Lemma cursor_of_image_consistent img :
  native_image_ok img -> shape_consistent (cursor_of_image img).
Proof.
  intros (Hw & Hh & Hx & Hy & Hmax & Hlen).
  split.
  - rewrite (cursor_of_image_data img Hw Hh Hmax Hlen), length_map. by cbn.
  - cbn. lia.
Qed.

Lemma fetched_shape_consistent reply :
  reply_ok reply -> from_option shape_consistent True (fetched_shape reply).
Proof.
  intros Hok. unfold fetched_shape.
  destruct (fetched reply) as [img|] eqn:Himg; [|done].
  case_bool_decide; [done|]. cbn. by apply cursor_of_image_consistent, Hok.
Qed.

Lemma accepted_consistent o event reply :
  reply_ok reply ->
  from_option shape_consistent True (accepted o (event, reply)).
Proof.
  intros Hok. unfold accepted. cbn [fst snd].
  destruct (_ && _); [by apply fetched_shape_consistent|done].
Qed.

Lemma slot_after_consistent o (pending : list (XEvent * CursorImageReply)) :
  from_option shape_consistent True (cursor_shape_ o) ->
  Forall reply_ok (snd <$> pending) ->
  from_option shape_consistent True (slot_after o pending).
Proof.
  intros Hold Hreplies. unfold slot_after.
  destruct (last (omap (accepted o) pending)) as [s|] eqn:Hlast; [|done].
  cbn. apply last_Some_elem_of, list_elem_of_omap in Hlast
    as ([event reply] & Hin & Hacc).
  unfold accepted in Hacc. cbn [fst snd] in Hacc.
  destruct (_ && _) in Hacc; [|done].
  assert (Hok : reply_ok reply).
  { rewrite Forall_forall in Hreplies. apply Hreplies.
    by apply (list_elem_of_fmap_2 snd) in Hin. }
  pose proof (fetched_shape_consistent reply Hok) as Hshape.
  by rewrite Hacc in Hshape.
Qed.

Lemma Capture_slot o cb pending pointer cs :
  callback_ o = Some cb ->
  Capture pending pointer o cs =
    Returned tt (set_cursor_shape_ None o)
      (cs ++ shape_call cb (slot_after o pending)
          ++ position_call cb o pointer).
Proof.
  intros Hcb.
  destruct (Capture_returns o cb pending pointer cs Hcb)
    as (shape & E & _ & Hcap).
  rewrite ProcessPendingXEvents_slot in E. injection E as E. by subst shape.
Qed.

Lemma run_steps_consistent steps :
  forall o cb cs,
    callback_ o = Some cb ->
    from_option shape_consistent True (cursor_shape_ o) ->
    Forall reply_ok (replies_of_steps steps) ->
    Forall shape_consistent (shapes_delivered cs) ->
    Forall shape_consistent
      (shapes_delivered (calls_of (run_steps steps o cs))).
Proof.
  induction steps as [|[pending pointer|event reply] rest IH];
    intros o cb cs Hcb Hslot Hreplies Hcs; cbn [run_steps replies_of_steps] in *.
  - done.
  - apply Forall_app in Hreplies as [Hpending Hrest].
    rewrite (bind_returned _ _ _ _ _ _ _
               (Capture_slot o cb pending pointer cs Hcb)).
    cbv beta. apply (IH _ cb); [done|done|done|].
    rewrite !shapes_delivered_app, shapes_of_position_call, app_nil_r.
    apply Forall_app. split; [done|].
    rewrite shapes_of_shape_call.
    pose proof (slot_after_consistent o pending Hslot Hpending) as Hnew.
    destruct (slot_after o pending); [by constructor|constructor].
  - apply Forall_cons in Hreplies as [Hreply Hrest].
    rewrite (bind_returned _ _ _ _ _ _ _ (HandleXEvent_slot event reply o cs)).
    cbv beta. apply (IH _ cb); [done| |done|done].
    cbn [cursor_shape_ set_cursor_shape_].
    pose proof (accepted_consistent o event reply Hreply) as Hnew.
    by destruct (accepted o (event, reply)).
Qed.

(** X12. Every shape an object hands to its consumer, from Init to its
    destruction, is consistent when the images the server sends are: its
    bitmap has exactly width * height pixels for the size it carries, and
    its hotspot is not outside the frame, the far edges included. *)
Theorem delivered_shapes_consistent options window cb mode ext reply steps :
  Forall reply_ok (reply :: replies_of_steps steps) ->
  Forall shape_consistent
    (shapes_delivered
       (calls_of (lifetime (Some cb) mode ext reply steps
                    (new_MouseCursorMonitorX11 options window) []))).
Proof.
  intros Hreplies. apply Forall_cons in Hreplies as [Hreply Hsteps].
  unfold lifetime.
  assert (Hdestroy : forall o cs,
            callback_ o = Some cb ->
            from_option shape_consistent True (cursor_shape_ o) ->
            Forall shape_consistent (shapes_delivered cs) ->
            Forall shape_consistent
              (shapes_delivered
                 (calls_of ((run_steps steps ;; destroy) o cs)))).
  { intros o cs Hcb Hslot Hcs.
    pose proof (run_steps_consistent steps o cb cs Hcb Hslot Hsteps Hcs) as H.
    destruct (run_steps_returns steps o cb cs Hcb)
      as (shape & extra & E & _).
    rewrite E in H. rewrite (bind_returned _ _ _ _ _ _ _ E). cbv beta.
    rewrite destroy_returns. cbn [calls_of] in *.
    rewrite shapes_delivered_app. apply Forall_app. split; [done|].
    by destruct (have_xfixes_ _). }
  destruct (ext_available ext) eqn:Hext.
  - rewrite (bind_returned _ _ _ _ _ _ _
               (Init_with_xfixes (new_MouseCursorMonitorX11 options window) []
                  cb mode ext reply eq_refl Hext)).
    cbv beta. apply Hdestroy; [done| |by constructor].
    cbn [cursor_shape_ set_cursor_shape_ new_MouseCursorMonitorX11].
    pose proof (fetched_shape_consistent reply Hreply) as Hseed.
    by destruct (fetched_shape reply).
  - rewrite (bind_returned _ _ _ _ _ _ _
               (Init_without_xfixes
                  (new_MouseCursorMonitorX11 options window) []
                  cb mode ext reply eq_refl Hext)).
    cbv beta. apply Hdestroy; [done|done|by constructor].
Qed.

Lemma delivered_shapes_consistent_witness :
  Forall shape_consistent
    (shapes_delivered
       (calls_of
          (lifetime (Some 7%nat) SHAPE_ONLY Sample.xfixes
             (Sample.good Sample.image_10x10)
             [CaptureStep [(Sample.notify, Sample.good Sample.image_2x2)]
                (Sample.pointer_over 1 4)]
             Sample.fresh []))).
Proof.
  apply (delivered_shapes_consistent Sample.options 4 7%nat SHAPE_ONLY
           Sample.xfixes (Sample.good Sample.image_10x10)
           [CaptureStep [(Sample.notify, Sample.good Sample.image_2x2)]
              (Sample.pointer_over 1 4)]).
  cbn. constructor 2; [|constructor 2; [|constructor 1]];
    intros img [= <-]; unfold native_image_ok, INT_MAX; cbn; lia.
Defined.
